(** * dam_sdk: the DAM client SDK, embedded and verified

    The development follows the layout of the Python package:
    - [Py]         the Python values, dicts and exceptions the SDK manipulates;
    - [Utils]      dam_sdk/utils.py;
    - [Models]     dam_sdk/models.py;
    - [Client]     dam_sdk/client.py (the blocking client);
    - [AsyncClient] dam_sdk/async_client.py (the cooperative client).
    The embedding comes first, then the terms in which the properties are
    stated, then the properties. *)

From Stdlib Require Import ZArith List String Ascii Bool Lia DecimalString.
Import ListNotations.
Open Scope string_scope.
Open Scope Z_scope.
Set Warnings "-register-all".

(* ================================================================= *)
(** ** Python values *)

Module Py.

(** [datetime.datetime]: the calendar fields and the UTC offset in seconds;
    [dt_utcoffset = None] is a naive datetime, [Some _] a timezone-aware one. *)
Record datetime := mk_datetime {
  dt_year : Z; dt_month : Z; dt_day : Z;
  dt_hour : Z; dt_minute : Z; dt_second : Z; dt_microsecond : Z;
  dt_utcoffset : option Z
}.

(** The objects that [json.loads] produces (None, bool, int, float, str, list,
    dict with string keys in insertion order), and [datetime] objects, which
    [from_dict] stores into such dicts.  A float is kept as its IEEE-754
    binary64 bit pattern, a str as the string of its UTF-8 bytes (the
    characters the SDK tests for are ASCII). *)
Inductive value :=
| VNone
| VBool (b : bool)
| VInt (z : Z)
| VFloat (bits : Z)
| VStr (s : string)
| VList (l : list value)
| VDict (d : list (string * value))
| VDatetime (t : datetime).

Definition dict := list (string * value).

(** [bool(v)]: the truth value Python's [if], [or] and [not] use. *)
Definition truthy (v : value) : bool :=
  match v with
  | VNone => false
  | VBool b => b
  | VInt z => negb (z =? 0)
  | VFloat bits => negb (Z.land bits (2 ^ 63 - 1) =? 0)
  | VStr s => negb (s =? "")%string
  | VList l => match l with [] => false | _ => true end
  | VDict d => match d with [] => false | _ => true end
  | VDatetime _ => true
  end.

(** [a or b] *)
Definition or_ (a b : value) : value := if truthy a then a else b.

(** Insertion-ordered maps with string keys. *)
Fixpoint lookup {A : Type} (k : string) (d : list (string * A)) : option A :=
  match d with
  | [] => None
  | (k', v) :: rest => if (k' =? k)%string then Some v else lookup k rest
  end.

Definition has_key {A : Type} (k : string) (d : list (string * A)) : bool :=
  match lookup k d with Some _ => true | None => false end.

(** [d[k] = v]: overwrite in place, or append a new key. *)
Fixpoint setitem {A : Type} (k : string) (v : A) (d : list (string * A))
  : list (string * A) :=
  match d with
  | [] => [(k, v)]
  | (k', v') :: rest =>
      if (k' =? k)%string then (k', v) :: rest else (k', v') :: setitem k v rest
  end.

(** [d.get(k)] and [d.get(k, default)] *)
Definition get (d : dict) (k : string) : value :=
  match lookup k d with Some v => v | None => VNone end.

Definition get_default (d : dict) (k : string) (default : value) : value :=
  match lookup k d with Some v => v | None => default end.

(** [str(n)] for an int *)
Definition str_int (z : Z) : string := NilZero.string_of_int (Z.to_int z).

(** [needle in haystack] for two strings *)
Fixpoint substring_in (needle haystack : string) : bool :=
  prefix needle haystack
  || match haystack with
     | EmptyString => false
     | String _ rest => substring_in needle rest
     end.

(** The pieces of an f-string: literal text and [{expr}] substitutions. *)
Inductive fpiece :=
| Lit (s : string)
| Subst (v : value).

(** The argument an exception is constructed with: an object passed as it is,
    or the string an f-string builds. *)
Inductive pyarg :=
| Arg (v : value)
| FString (pieces : list fpiece).

(** [str(v)] where it is plain: strings, ints, None and bools. *)
Definition str_scalar (v : value) : option string :=
  match v with
  | VStr s => Some s
  | VInt z => Some (str_int z)
  | VNone => Some "None"
  | VBool true => Some "True"
  | VBool false => Some "False"
  | _ => None
  end.

Fixpoint render_pieces (ps : list fpiece) : option string :=
  match ps with
  | [] => Some ""
  | Lit s :: rest => option_map (append s) (render_pieces rest)
  | Subst v :: rest =>
      match str_scalar v, render_pieces rest with
      | Some s, Some r => Some (s ++ r)
      | _, _ => None
      end
  end.

(** The text of an exception argument, where [str_scalar] covers it. *)
Definition render (a : pyarg) : option string :=
  match a with
  | Arg v => str_scalar v
  | FString ps => render_pieces ps
  end.

(** Classes that appear in [except] clauses or that the libraries raise. *)
Inductive pyclass :=
| requests_Timeout
| requests_ConnectTimeout
| requests_ConnectionError
| requests_RequestException
| aiohttp_ClientTimeout
| aiohttp_ClientConnectionError
| aiohttp_ClientError
| aiohttp_ContentTypeError
| asyncio_TimeoutError
| builtin_ValueError
| builtin_TypeError
| builtin_AttributeError
| builtin_KeyError
| builtin_OSError
| builtin_NotImplementedError.

Definition pyclass_eqb (c d : pyclass) : bool :=
  match c, d with
  | requests_Timeout, requests_Timeout
  | requests_ConnectTimeout, requests_ConnectTimeout
  | requests_ConnectionError, requests_ConnectionError
  | requests_RequestException, requests_RequestException
  | aiohttp_ClientTimeout, aiohttp_ClientTimeout
  | aiohttp_ClientConnectionError, aiohttp_ClientConnectionError
  | aiohttp_ClientError, aiohttp_ClientError
  | aiohttp_ContentTypeError, aiohttp_ContentTypeError
  | asyncio_TimeoutError, asyncio_TimeoutError
  | builtin_ValueError, builtin_ValueError
  | builtin_TypeError, builtin_TypeError
  | builtin_AttributeError, builtin_AttributeError
  | builtin_KeyError, builtin_KeyError
  | builtin_OSError, builtin_OSError
  | builtin_NotImplementedError, builtin_NotImplementedError => true
  | _, _ => false
  end.

(** The direct bases of each class, among the classes above. *)
Definition bases (c : pyclass) : list pyclass :=
  match c with
  | requests_Timeout => [requests_RequestException]
  | requests_ConnectTimeout => [requests_ConnectionError; requests_Timeout]
  | requests_ConnectionError => [requests_RequestException]
  | requests_RequestException => [builtin_OSError]
  | aiohttp_ClientConnectionError => [aiohttp_ClientError]
  | aiohttp_ContentTypeError => [aiohttp_ClientError]
  | _ => []
  end.

(** [issubclass c d], following [bases] (the hierarchy is three levels deep). *)
Fixpoint issubclass_fuel (fuel : nat) (c d : pyclass) : bool :=
  pyclass_eqb c d
  || match fuel with
     | O => false
     | S fuel' => existsb (fun b => issubclass_fuel fuel' b d) (bases c)
     end.

Definition issubclass (c d : pyclass) : bool := issubclass_fuel 4 c d.

(** Whether the class derives from [BaseException].  [aiohttp.ClientTimeout]
    is the timeout settings class of aiohttp, the one [AsyncDAMClient.__init__]
    instantiates as [aiohttp.ClientTimeout(total=timeout)]; it is a plain data
    class, not an exception. *)
Definition is_exception_class (c : pyclass) : bool :=
  match c with
  | aiohttp_ClientTimeout => false
  | _ => true
  end.

(** Exceptions: the SDK's hierarchy (dam_sdk/exceptions.py), all deriving from
    [DAMError], and exceptions of the libraries and of the interpreter. *)
Inductive exn :=
| DAMError (a : pyarg)
| AuthenticationError (a : pyarg)
| AuthorizationError (a : pyarg)
| NotFoundError (a : pyarg)
| ValidationError (a : pyarg)
| RateLimitError (a : pyarg)
| FileTooLargeError (a : pyarg)
| NetworkError (a : pyarg)
| TimeoutError (a : pyarg)
| ServerError (a : pyarg) (status_code : Z) (response_data : value)
| ConfigurationError (a : pyarg)
| Foreign (c : pyclass) (detail : string).

(** [isinstance(e, DAMError)] *)
Definition is_DAMError (e : exn) : bool :=
  match e with
  | Foreign _ _ => false
  | _ => true
  end.

(** [isinstance(e, c)] for a class [c] of the libraries: no SDK exception
    derives from one of them. *)
Definition isinstance (e : exn) (c : pyclass) : bool :=
  match e with
  | Foreign c' _ => issubclass c' c
  | _ => false
  end.

(** A computation either returns or raises. *)
Inductive result (A : Type) :=
| Return (a : A)
| Raise (e : exn).
Arguments Return {A} a.
Arguments Raise {A} e.

Definition bind {A B : Type} (r : result A) (k : A -> result B) : result B :=
  match r with
  | Return a => k a
  | Raise e => Raise e
  end.

Definition raises {A : Type} (r : result A) : bool :=
  match r with Return _ => false | Raise _ => true end.

(** One [except cls as e: handler] clause. *)
Definition handler (A : Type) := (pyclass * (exn -> result A))%type.

(** What the [except] clauses of a [try] statement do with an exception that
    leaves its body: the clauses are tried in order; matching against a class
    that does not derive from [BaseException] raises [TypeError]. *)
Fixpoint dispatch {A : Type} (e : exn) (hs : list (handler A)) : result A :=
  match hs with
  | [] => Raise e
  | (c, h) :: rest =>
      if negb (is_exception_class c) then
        Raise (Foreign builtin_TypeError
          "catching classes that do not inherit from BaseException is not allowed")
      else if isinstance e c then h e
      else dispatch e rest
  end.

Definition try_except {A : Type} (body : result A) (hs : list (handler A))
  : result A :=
  match body with
  | Return a => Return a
  | Raise e => dispatch e hs
  end.

End Py.

Notation "x <- c1 ;; c2" := (Py.bind c1 (fun x => c2))
  (at level 61, c1 at next level, right associativity).

(* ================================================================= *)
(** ** dam_sdk/constants.py *)

Module Constants.

Definition MAX_FILE_SIZE : Z := 100 * 1024 * 1024.

Definition ENDPOINT_upload_single : string := "/api/public/single".
Definition ENDPOINT_upload_multiple : string := "/api/public/multiple".

End Constants.

(* ================================================================= *)
(** ** dam_sdk/utils.py *)

Module Utils.
Import Py.

Definition dquote : ascii := Eval cbv in ascii_of_nat 34.
Definition backslash : ascii := Eval cbv in ascii_of_nat 92.

(** [s.split(sep)] for a one-character separator *)
Fixpoint split (sep : ascii) (s : string) : list string :=
  match s with
  | EmptyString => [EmptyString]
  | String c rest =>
      if Ascii.eqb c sep then EmptyString :: split sep rest
      else match split sep rest with
           | [] => [String c EmptyString]
           | p :: ps => String c p :: ps
           end
  end.

(** [PurePosixPath(p).parts] without the root: the components between
    slashes, empty ones and "." dropped. *)
Definition path_parts (p : string) : list string :=
  filter (fun x => negb (x =? "")%string && negb (x =? ".")%string)
         (split "/"%char p).

(** [Path(p).name]: the final component, empty when there is none. *)
Definition Path_name (p : string) : string := last (path_parts p) "".

(** [s.replace(old, new)] for a one-character [old] *)
Fixpoint replace_char (old new : ascii) (s : string) : string :=
  match s with
  | EmptyString => EmptyString
  | String c rest =>
      String (if Ascii.eqb c old then new else c) (replace_char old new rest)
  end.

Fixpoint replace_char_by (old : ascii) (new : string) (s : string) : string :=
  match s with
  | EmptyString => EmptyString
  | String c rest =>
      if Ascii.eqb c old then new ++ replace_char_by old new rest
      else String c (replace_char_by old new rest)
  end.

(** The characters of [invalid_chars], in the order of the source. *)
Definition invalid_chars : list ascii :=
  ["<"; ">"; ":"; dquote; "/"; backslash; "|"; "?"; "*"]%char.

Definition sanitize_filename (filename : string) : string :=
  let filename := Path_name filename in
  fold_left (fun name char => replace_char char "_"%char name)
            invalid_chars filename.

(** [mimetypes.guess_type] is the library's; [get_file_mimetype] adds the
    default. *)
Definition get_file_mimetype (guess_type : string -> option string)
    (file_path : string) : string :=
  match guess_type file_path with
  | Some m => if (m =? "")%string then "application/octet-stream" else m
  | None => "application/octet-stream"
  end.

(** [os.path.getsize] raises [OSError] where there is no such file. *)
Definition validate_file_size (getsize : string -> option Z)
    (file_path : string) (max_size : Z) : result bool :=
  match getsize file_path with
  | None => Raise (Foreign builtin_OSError file_path)
  | Some file_size => Return (file_size <=? max_size)
  end.

(** The parameter values [build_query_params] is given in the SDK: None,
    bool, int, str, and flat lists or tuples of these. *)
Inductive scalar :=
| SNone
| SBool (b : bool)
| SInt (z : Z)
| SStr (s : string).

Inductive qvalue :=
| QNone
| QBool (b : bool)
| QInt (z : Z)
| QStr (s : string)
| QSeq (l : list scalar).

(** [str(v)] *)
Definition str_of_scalar (v : scalar) : string :=
  match v with
  | SNone => "None"
  | SBool true => "True"
  | SBool false => "False"
  | SInt z => str_int z
  | SStr s => s
  end.

(** The three branches on the type of a value that is not None. *)
Definition format_value (v : qvalue) : string :=
  match v with
  | QNone => "None"
  | QBool true => "true"
  | QBool false => "false"
  | QSeq l => String.concat "," (map str_of_scalar l)
  | QInt z => str_int z
  | QStr s => s
  end.

(** The loop over [params.items()], accumulating [query_parts]. *)
Fixpoint query_parts (params : list (string * qvalue)) : list string :=
  match params with
  | [] => []
  | (key, QNone) :: rest => query_parts rest
  | (key, value) :: rest =>
      (key ++ "=" ++ format_value value) :: query_parts rest
  end.

Definition build_query_params (params : list (string * qvalue)) : string :=
  match params with
  | [] => ""
  | _ =>
      match query_parts params with
      | [] => ""
      | parts => "?" ++ String.concat "&" parts
      end
  end.

End Utils.

(* ================================================================= *)
(** ** dam_sdk/models.py *)

Module Models.
Import Py.

(** The [File] dataclass.  A dataclass does not check the annotated types, so
    every field holds whatever object the constructor was given. *)
Record File := mk_File {
  id : value;
  filename : value;
  original_name : value;
  mime_type : value;
  size : value;
  storage_path : value;
  file_url : value;
  user_id : value;
  folder_id : value;
  width : value;
  height : value;
  duration : value;
  metadata : value;
  checksum : value;
  is_public : value;
  download_count : value;
  created_at : value;
  updated_at : value
}.

(** [self.mime_type.startswith(p)]: only a str has the method. *)
Definition startswith (v : value) (p : string) : result bool :=
  match v with
  | VStr s => Return (prefix p s)
  | _ => Raise (Foreign builtin_AttributeError "startswith")
  end.

Definition is_image (self : File) : result bool :=
  startswith (mime_type self) "image/".

Definition is_video (self : File) : result bool :=
  startswith (mime_type self) "video/".

Definition document_types : list string :=
  [ "application/pdf";
    "application/msword";
    "application/vnd.openxmlformats-officedocument.wordprocessingml.document";
    "application/vnd.ms-excel";
    "application/vnd.openxmlformats-officedocument.spreadsheetml.sheet" ].

(** [self.mime_type in document_types]: membership in a set of strings hashes
    the object, which a list or a dict refuses. *)
Definition is_document (self : File) : result bool :=
  match mime_type self with
  | VStr s => Return (existsb (String.eqb s) document_types)
  | VList _ | VDict _ => Raise (Foreign builtin_TypeError "unhashable type")
  | _ => Return false
  end.

(** The fields of [File] that have no default, and all its fields. *)
Definition required_fields : list string :=
  ["id"; "filename"; "original_name"; "mime_type"; "size"; "storage_path";
   "file_url"; "user_id"].

Definition optional_fields : list string :=
  ["folder_id"; "width"; "height"; "duration"; "metadata"; "checksum";
   "is_public"; "download_count"; "created_at"; "updated_at"].

Definition known_field (k : string) : bool :=
  existsb (String.eqb k) (required_fields ++ optional_fields).

(** The constructor call [cls] makes with the entries of [data] as keyword
    arguments: an unknown keyword or a missing required one is a
    [TypeError]; a missing optional field takes its default. *)
Definition File_init (data : dict) : result File :=
  if negb (forallb (fun kv => known_field (fst kv)) data) then
    Raise (Foreign builtin_TypeError "unexpected keyword argument")
  else if negb (forallb (fun k => has_key k data) required_fields) then
    Raise (Foreign builtin_TypeError "missing required positional arguments")
  else
    Return {|
      id := get data "id";
      filename := get data "filename";
      original_name := get data "original_name";
      mime_type := get data "mime_type";
      size := get data "size";
      storage_path := get data "storage_path";
      file_url := get data "file_url";
      user_id := get data "user_id";
      folder_id := get_default data "folder_id" VNone;
      width := get_default data "width" VNone;
      height := get_default data "height" VNone;
      duration := get_default data "duration" VNone;
      metadata := get_default data "metadata" (VDict []);
      checksum := get_default data "checksum" VNone;
      is_public := get_default data "is_public" (VBool true);
      download_count := get_default data "download_count" (VInt 0);
      created_at := get_default data "created_at" VNone;
      updated_at := get_default data "updated_at" VNone
    |}.

(** [ts.replace('Z', '+00:00')] *)
Definition normalize_Z (ts : string) : string :=
  Utils.replace_char_by "Z"%char "+00:00" ts.

(** One of the two conversions of [from_dict]:
    [if ts and isinstance(ts, str): data[key] = datetime.fromisoformat(...)],
    where [ts] is the value read from [data] before either conversion.
    [fromisoformat] is the library's parser; it raises [ValueError] on a string
    it does not accept. *)
Definition convert_timestamp (fromisoformat : string -> option datetime)
    (key : string) (ts : value) (data : dict) : result dict :=
  match ts with
  | VStr s =>
      if truthy ts then
        match fromisoformat (normalize_Z s) with
        | Some t => Return (setitem key (VDatetime t) data)
        | None => Raise (Foreign builtin_ValueError "Invalid isoformat string")
        end
      else Return data
  | _ => Return data
  end.

(** [File.from_dict(data)]; [data.get] needs a dict. *)
Definition from_dict (fromisoformat : string -> option datetime)
    (data : value) : result File :=
  match data with
  | VDict d =>
      let created_at := get d "created_at" in
      let updated_at := get d "updated_at" in
      d <- convert_timestamp fromisoformat "created_at" created_at d ;;
      d <- convert_timestamp fromisoformat "updated_at" updated_at d ;;
      File_init d
  | _ => Raise (Foreign builtin_AttributeError "get")
  end.

(** [UploadResponse] and [UploadOptions] *)
Record UploadResponse := mk_UploadResponse {
  ur_success : value;
  ur_message : value;
  ur_data : list File;
  ur_failed : value;
  ur_counts : value
}.

Record UploadOptions := mk_UploadOptions {
  uo_folder_id : option string;
  uo_metadata : option dict;
  uo_original_name : option string
}.

Definition UploadOptions_default : UploadOptions :=
  {| uo_folder_id := None; uo_metadata := None; uo_original_name := None |}.

(** [TransformOptions], with the annotated types of its fields. *)
Record TransformOptions := mk_TransformOptions {
  to_width : option Z;
  to_height : option Z;
  to_fit : string;
  to_format : option string;
  to_quality : Z;
  to_blur : option Z;
  to_grayscale : bool;
  to_rotate : option Z
}.

(** [TransformOptions()] *)
Definition TransformOptions_default : TransformOptions :=
  {| to_width := None; to_height := None; to_fit := "cover";
     to_format := None; to_quality := 80; to_blur := None;
     to_grayscale := false; to_rotate := None |}.

(** [if n:] for an optional int, and for an optional str *)
Definition int_set (n : option Z) : option Z :=
  match n with
  | Some z => if z =? 0 then None else Some z
  | None => None
  end.

Definition str_set (s : option string) : option string :=
  match s with
  | Some t => if (t =? "")%string then None else Some t
  | None => None
  end.

(** [if cond: params[key] = text] on the dict being built *)
Definition put_if (entry : option (string * string))
    (params : list (string * string)) : list (string * string) :=
  match entry with
  | Some (k, v) => setitem k v params
  | None => params
  end.

Definition to_query_params (self : TransformOptions) : list (string * string) :=
  let params := [] in
  let params := put_if (option_map (fun z => ("w", str_int z)) (int_set (to_width self))) params in
  let params := put_if (option_map (fun z => ("h", str_int z)) (int_set (to_height self))) params in
  let params := put_if (option_map (fun s => ("fit", s)) (str_set (Some (to_fit self)))) params in
  let params := put_if (option_map (fun s => ("format", s)) (str_set (to_format self))) params in
  let params := put_if (option_map (fun z => ("quality", str_int z)) (int_set (Some (to_quality self)))) params in
  let params := put_if (option_map (fun z => ("blur", str_int z)) (int_set (to_blur self))) params in
  let params := put_if (if to_grayscale self then Some ("grayscale", "true") else None) params in
  let params := put_if (option_map (fun z => ("rotate", str_int z)) (int_set (to_rotate self))) params in
  params.

End Models.

(* ================================================================= *)
(** ** dam_sdk/client.py *)

Module Client.
Import Py Utils Models Constants.

(** What [_handle_response] reads of a response: [response.status_code],
    [response.text], and what [response.json()] does ([None]: it raises
    [ValueError]). *)
Record Response := mk_Response {
  status_code : Z;
  text : string;
  json : option value
}.

(** [response_data.get(key)] and [response_data.get(key, default)] on an
    arbitrary object: only a dict has the method. *)
Definition method_get (v : value) (key : string) (default : value)
  : result value :=
  match v with
  | VDict d => Return (get_default d key default)
  | _ => Raise (Foreign builtin_AttributeError "get")
  end.

(** The [try: response.json() except ValueError:] at the head of
    [_handle_response]. *)
Definition parse_body (response : Response) : value :=
  match json response with
  | Some v => v
  | None => VDict [("message", or_ (VStr (text response)) (VStr "Unknown error"))]
  end.

(** [response_data.get('message') or response_data.get('error') or
    'Unknown error'] *)
Definition extract_error_message (response_data : value) : result value :=
  m <- method_get response_data "message" VNone ;;
  if truthy m then Return m
  else
    e <- method_get response_data "error" VNone ;;
    Return (or_ e (VStr "Unknown error")).

Definition _handle_response (response : Response) : result value :=
  let response_data := parse_body response in
  if status_code response =? 200 then Return response_data
  else
    error_message <- extract_error_message response_data ;;
    let status := status_code response in
    if status =? 401 then Raise (AuthenticationError (Arg error_message))
    else if status =? 403 then Raise (AuthorizationError (Arg error_message))
    else if status =? 404 then Raise (NotFoundError (Arg error_message))
    else if status =? 413 then Raise (FileTooLargeError (Arg error_message))
    else if status =? 422 then Raise (ValidationError (Arg error_message))
    else if status =? 429 then Raise (RateLimitError (Arg error_message))
    else if (500 <=? status) && (status <? 600) then
      Raise (ServerError
               (FString [Lit "Server error "; Subst (VInt status); Lit ": ";
                         Subst error_message])
               status response_data)
    else
      Raise (DAMError
               (FString [Lit "API error "; Subst (VInt status); Lit ": ";
                         Subst error_message])).

(** *** Files and the network *)

(** A file object: one that [open] returned inside the SDK (numbered in the
    order of the calls), or a file-like object of the caller. *)
Inductive fileobj :=
| Opened (n : nat)
| Given (n : nat).

Definition fileobj_eqb (f g : fileobj) : bool :=
  match f, g with
  | Opened n, Opened m => Nat.eqb n m
  | Given n, Given m => Nat.eqb n m
  | _, _ => false
  end.

(** The argument of an upload: [str] or [Path], or a [BinaryIO]. *)
Inductive file_arg :=
| PathArg (p : string)
| ObjArg (n : nat).

(** One entry of [files]: [(field, (filename, fileobj, mime_type))]. *)
Record Part := mk_Part {
  part_field : string;
  part_filename : string;
  part_file : fileobj;
  part_mime : string
}.

(** A value of the form data: a string, or [json.dumps] of a dict. *)
Inductive form_value :=
| FormStr (s : string)
| FormJson (d : dict).

Record Request := mk_Request {
  req_method : string;
  req_url : string;
  req_files : list Part;
  req_data : list (string * form_value)
}.

(** What surrounds the client: the filesystem ([os.path.getsize], [open]),
    the libraries, and [session.request] with its retries, which returns a
    response or raises. *)
Record Env := mk_Env {
  getsize : string -> option Z;
  openable : string -> bool;
  guess_type : string -> option string;
  fromisoformat : string -> option datetime;
  session_request : Request -> result Response
}.

(** What the client changes: the paths opened so far (the [n]-th opened file
    is [Opened n]), the [close()] calls made, and the requests handed to the
    transport; each in the order of occurrence. *)
Record State := mk_State {
  opened : list string;
  closed : list fileobj;
  sent : list Request
}.

Definition initial : State := {| opened := []; closed := []; sent := [] |}.

(** Computations over [State] that return or raise. *)
Definition M (A : Type) := State -> result A * State.

Definition ret {A : Type} (a : A) : M A := fun st => (Return a, st).
Definition raise {A : Type} (e : exn) : M A := fun st => (Raise e, st).
Definition lift {A : Type} (r : result A) : M A := fun st => (r, st).

Definition bindM {A B : Type} (m : M A) (k : A -> M B) : M B :=
  fun st =>
    match m st with
    | (Return a, st') => k a st'
    | (Raise e, st') => (Raise e, st')
    end.

(** [try: body finally: cleanup], for a cleanup that does not raise. *)
Definition finally {A : Type} (body : M A) (cleanup : State -> State) : M A :=
  fun st => let (r, st') := body st in (r, cleanup st').

Notation "x <~ c1 ;; c2" := (bindM c1 (fun x => c2))
  (at level 61, c1 at next level, right associativity).

(** [open(path, 'rb')] *)
Definition open_rb (env : Env) (path : string) : M fileobj :=
  fun st =>
    if openable env path then
      (Return (Opened (List.length (opened st))),
       {| opened := opened st ++ [path]; closed := closed st; sent := sent st |})
    else (Raise (Foreign builtin_OSError path), st).

(** [f.close()] *)
Definition close (f : fileobj) (st : State) : State :=
  {| opened := opened st; closed := closed st ++ [f]; sent := sent st |}.

Record DAMClient := mk_DAMClient {
  api_url : string;
  timeout : Z
}.

(** [str(e)] of a library exception *)
Definition exn_detail (e : exn) : value :=
  match e with
  | Foreign _ d => VStr d
  | _ => VNone
  end.

Definition _request (env : Env) (self : DAMClient) (method endpoint : string)
    (files : list Part) (data : list (string * form_value)) : M value :=
  fun st =>
    let request :=
      {| req_method := method; req_url := api_url self ++ endpoint;
         req_files := files; req_data := data |} in
    let st' :=
      {| opened := opened st; closed := closed st;
         sent := sent st ++ [request] |} in
    let response :=
      try_except (session_request env request)
        [ (requests_Timeout, fun e =>
             Raise (TimeoutError
                      (FString [Lit "Request timed out after ";
                                Subst (VInt (timeout self)); Lit " seconds"])));
          (requests_ConnectionError, fun e =>
             Raise (NetworkError (Arg (VStr "Network connection failed"))));
          (requests_RequestException, fun e =>
             Raise (DAMError
                      (FString [Lit "Request failed: "; Subst (exn_detail e)])))
        ] in
    (r <- response ;; _handle_response r, st').

Definition _build_upload_data (options : UploadOptions)
  : list (string * form_value) :=
  let data := [] in
  let data :=
    match str_set (uo_folder_id options) with
    | Some f => setitem "folder_id" (FormStr f) data
    | None => data
    end in
  let data :=
    match uo_metadata options with
    | Some (x :: m) => setitem "metadata" (FormJson (x :: m)) data
    | _ => data
    end in
  let data :=
    match str_set (uo_original_name options) with
    | Some n => setitem "original_name" (FormStr n) data
    | None => data
    end in
  data.

Definition _upload_files (env : Env) (self : DAMClient) (files : list Part)
    (options : UploadOptions) : M File :=
  response_data <~ _request env self "POST" ENDPOINT_upload_single files
                     (_build_upload_data options) ;;
  file_data <~ lift (method_get response_data "data" (VDict [])) ;;
  lift (from_dict (fromisoformat env) file_data).

(** [options or UploadOptions()] *)
Definition options_or_default (options : option UploadOptions) : UploadOptions :=
  match options with
  | Some o => o
  | None => UploadOptions_default
  end.

Definition upload_file (env : Env) (self : DAMClient) (file_path : file_arg)
    (options : option UploadOptions) : M File :=
  let options := options_or_default options in
  match file_path with
  | PathArg file_path =>
      ok <~ lift (validate_file_size (getsize env) file_path MAX_FILE_SIZE) ;;
      if negb ok then
        raise (FileTooLargeError
                 (FString [Lit "File exceeds maximum size of ";
                           Subst (VInt MAX_FILE_SIZE); Lit " bytes"]))
      else
        let filename := sanitize_filename file_path in
        let mime_type := get_file_mimetype (guess_type env) file_path in
        f <~ open_rb env file_path ;;
        finally
          (_upload_files env self
             [{| part_field := "file"; part_filename := filename;
                 part_file := f; part_mime := mime_type |}] options)
          (close f)
  | ObjArg n =>
      _upload_files env self
        [{| part_field := "file"; part_filename := "uploaded_file";
            part_file := Given n; part_mime := "application/octet-stream" |}]
        options
  end.

(** The loop of [upload_multiple_files] that fills [files], from index [i]
    of the enumeration on. *)
Fixpoint assemble (env : Env) (i : nat) (file_paths : list file_arg)
    (files : list Part) : M (list Part) :=
  match file_paths with
  | [] => ret files
  | PathArg file_path :: rest =>
      ok <~ lift (validate_file_size (getsize env) file_path MAX_FILE_SIZE) ;;
      if negb ok then
        raise (FileTooLargeError
                 (FString [Lit "File "; Subst (VStr file_path);
                           Lit " exceeds maximum size"]))
      else
        let filename := sanitize_filename file_path in
        let mime_type := get_file_mimetype (guess_type env) file_path in
        f <~ open_rb env file_path ;;
        assemble env (S i) rest
          (files ++ [{| part_field := "files"; part_filename := filename;
                        part_file := f; part_mime := mime_type |}])
  | ObjArg n :: rest =>
      assemble env (S i) rest
        (files ++ [{| part_field := "files";
                      part_filename := "file_" ++ str_int (Z.of_nat i);
                      part_file := Given n;
                      part_mime := "application/octet-stream" |}])
  end.

(** [key in v] *)
Definition contains (key : string) (v : value) : result bool :=
  match v with
  | VDict d => Return (has_key key d)
  | VList l =>
      Return (existsb (fun x => match x with
                                | VStr s => (s =? key)%string
                                | _ => false
                                end) l)
  | VStr s => Return (substring_in key s)
  | _ => Raise (Foreign builtin_TypeError "argument is not iterable")
  end.

(** [v[key]] for a string key *)
Definition getitem (v : value) (key : string) : result value :=
  match v with
  | VDict d =>
      match lookup key d with
      | Some x => Return x
      | None => Raise (Foreign builtin_KeyError key)
      end
  | _ => Raise (Foreign builtin_TypeError "indices must be integers")
  end.

(** The objects a [for] loop over [v] visits. *)
Definition iterate (v : value) : result (list value) :=
  match v with
  | VList l => Return l
  | VDict d => Return (map (fun kv => VStr (fst kv)) d)
  | VStr s => Return (map (fun c => VStr (String c EmptyString)) (list_ascii_of_string s))
  | _ => Raise (Foreign builtin_TypeError "object is not iterable")
  end.

Fixpoint map_result {A B : Type} (f : A -> result B) (l : list A)
  : result (list B) :=
  match l with
  | [] => Return []
  | a :: rest => b <- f a ;; bs <- map_result f rest ;; Return (b :: bs)
  end.

(** The part of [upload_multiple_files] that turns [response_data] into an
    [UploadResponse]. *)
Definition to_upload_response (env : Env) (response_data : value)
  : result UploadResponse :=
  has_data <- contains "data" response_data ;;
  has_uploaded <-
    (if has_data then
       d <- getitem response_data "data" ;; contains "uploaded" d
     else Return false) ;;
  uploaded_files <-
    (if has_uploaded then
       d <- getitem response_data "data" ;;
       u <- getitem d "uploaded" ;;
       items <- iterate u ;;
       map_result (from_dict (fromisoformat env)) items
     else Return []) ;;
  success <- method_get response_data "success" (VBool false) ;;
  message <- method_get response_data "message" (VStr "") ;;
  d1 <- method_get response_data "data" (VDict []) ;;
  failed <- method_get d1 "failed" (VList []) ;;
  d2 <- method_get response_data "data" (VDict []) ;;
  counts <- method_get d2 "counts" (VDict []) ;;
  Return {| ur_success := success; ur_message := message;
            ur_data := uploaded_files; ur_failed := failed;
            ur_counts := counts |}.

(** The [finally] clause: every file object of [files] is closed (each one
    has a [close] method). *)
Definition close_all (files : list Part) (st : State) : State :=
  fold_left (fun st p => close (part_file p) st) files st.

Definition upload_multiple_files (env : Env) (self : DAMClient)
    (file_paths : list file_arg) (options : option UploadOptions)
  : M UploadResponse :=
  let options := options_or_default options in
  files <~ assemble env 0 file_paths [] ;;
  finally
    (response_data <~ _request env self "POST" ENDPOINT_upload_multiple files
                        (_build_upload_data options) ;;
     lift (to_upload_response env response_data))
    (close_all files).

End Client.

(* ================================================================= *)
(** ** dam_sdk/async_client.py *)

Module AsyncClient.
Import Py.

(** What [_request] reads of an aiohttp response: [response.status],
    [await response.text()] and [await response.json()]. *)
Record AioResponse := mk_AioResponse {
  status : Z;
  body_text : string;
  body_json : result value
}.

Record AsyncDAMClient := mk_AsyncDAMClient {
  api_url : string;
  timeout_repr : string   (* str(self.timeout), a ClientTimeout object *)
}.

(** The local class [MockResponse]: its [json()] is [json.loads(self.text)],
    where [json_loads] is the library's parser ([None]: it raises
    [JSONDecodeError], a [ValueError]). *)
Definition MockResponse (json_loads : string -> option value)
    (status_code : Z) (text : string) : Client.Response :=
  {| Client.status_code := status_code;
     Client.text := text;
     Client.json := json_loads text |}.

(** The body of [if response.status != 200:].  It builds a [DAMClient], hands
    the mock response to its [_handle_response], and closes the client in a
    [finally] clause; closing it has no effect on what [_request] returns or
    raises. *)
Definition error_block (json_loads : string -> option value)
    (response : AioResponse) : result value :=
  let text := body_text response in
  let mock_response := MockResponse json_loads (status response) text in
  Client._handle_response mock_response.

(** [_request], from the outcome of [session.request] on. *)
Definition _request (json_loads : string -> option value)
    (self : AsyncDAMClient) (outcome : result AioResponse) : result value :=
  try_except
    (response <- outcome ;;
     _ <- (if negb (status response =? 200)
           then error_block json_loads response
           else Return VNone) ;;
     response_data <- body_json response ;;
     Return response_data)
    [ (aiohttp_ClientTimeout, fun e =>
         Raise (TimeoutError
                  (FString [Lit "Request timed out after ";
                            Subst (VStr (timeout_repr self)); Lit " seconds"])));
      (aiohttp_ClientConnectionError, fun e =>
         Raise (NetworkError (Arg (VStr "Network connection failed"))));
      (aiohttp_ClientError, fun e =>
         Raise (DAMError
                  (FString [Lit "Request failed: ";
                            Subst (Client.exn_detail e)])))
    ].

End AsyncClient.

(* ================================================================= *)
(** ** dam_sdk/utils.py and dam_sdk/constants.py, the rest *)

Module UtilsRest.
Import Py Utils.

(** [n/d] rounded to the nearest integer, ties to the even one ([d > 0]). *)
Definition round_half_even (n d : Z) : Z :=
  let q := n / d in
  let r := n mod d in
  if 2 * r <? d then q
  else if d <? 2 * r then q + 1
  else if Z.even q then q else q + 1.

Definition two_digits (n : Z) : string :=
  if n <? 10 then "0" ++ str_int n else str_int n.

(** The text of the format spec [.2f] applied to the number [num/den]: the
    exact value rounded to hundredths, ties to even. *)
Definition fixed2 (num den : Z) : string :=
  let h := round_half_even (100 * num) den in
  (if h <? 0 then "-" else "")
  ++ str_int (Z.abs h / 100) ++ "." ++ two_digits (Z.abs h mod 100).

(** The loop of [format_bytes].  The running [size] is the fraction
    [num/den]: an int below 2^53 in absolute value converts to a float without
    rounding and each division by 1024.0 is exact, so for such sizes the float
    of the source is this fraction. *)
Fixpoint format_units (units : list string) (num den : Z) : string :=
  match units with
  | [] => fixed2 num den ++ " PB"
  | unit :: rest =>
      if num <? 1024 * den then fixed2 num den ++ " " ++ unit
      else format_units rest num (1024 * den)
  end.

Definition format_bytes (size : Z) : string :=
  format_units ["B"; "KB"; "MB"; "GB"; "TB"] size 1.

(** The built-in exceptions that [open] and [f.read] raise. *)
Inductive io_error :=
| OSError (path : string)
| ValueError      (* read length must be non-negative or -1 *)
| OverflowError   (* the length does not fit the index type, or the byte
                     string is too large *)
| MemoryError.

(** The longest byte string of CPython on a 64-bit machine:
    [sys.maxsize] less the header of a bytes object. *)
Definition max_bytes : Z := 2 ^ 63 - 34.

(** [f.read(n)] on what is left of a file opened in binary mode.  The length
    -1 reads everything; every other negative length is refused, with
    OverflowError when it does not fit the index type and ValueError
    otherwise.  For a length beyond what its buffer holds the reader
    allocates a byte string of [n] bytes before it reads, however little is
    left of the file: that is refused with OverflowError above [max_bytes]
    and with MemoryError above [limit], the longest byte string that the
    machine has memory for; else the read gives at most [n] bytes. *)
Definition read (limit : N) (n : Z) (rest : list Byte.byte)
  : io_error + list Byte.byte :=
  if n =? -1 then inr rest
  else if n <? - 2 ^ 63 then inl OverflowError
  else if n <? 0 then inl ValueError
  else if max_bytes <? n then inl OverflowError
  else if Z.of_N limit <? n then inl MemoryError
  else inr (firstn (Z.to_nat n) rest).

(** A generator run to its end: the chunks it yielded, in order, and the
    exception that ended it ([None] when it returned). *)
Record Run := {
  yielded : list (list Byte.byte);
  raised : option io_error
}.

(** The loop of [chunked_upload] on what is left of the file; each turn that
    yields consumes at least one byte, so [fuel] above the length of [rest]
    is never used up. *)
Fixpoint chunks (limit : N) (fuel : nat) (chunk_size : Z)
    (rest : list Byte.byte) : Run :=
  match fuel with
  | O => {| yielded := []; raised := None |}
  | S fuel' =>
      match read limit chunk_size rest with
      | inl e => {| yielded := []; raised := Some e |}
      | inr [] => {| yielded := []; raised := None |}
      | inr chunk =>
          let run :=
            chunks limit fuel' chunk_size (skipn (List.length chunk) rest) in
          {| yielded := chunk :: yielded run; raised := raised run |}
      end
  end.

(** The generator [chunked_upload] run to its end; [read_file] gives the
    content of the file at a path ([None]: [open] raises [OSError]). *)
Definition chunked_upload (read_file : string -> option (list Byte.byte))
    (limit : N) (file_path : string) (chunk_size : Z) : Run :=
  match read_file file_path with
  | None => {| yielded := []; raised := Some (OSError file_path) |}
  | Some content => chunks limit (S (List.length content)) chunk_size content
  end.

(** [s.lower()] on the ASCII letters; among the other characters none
    lowers to a letter of a supported format. *)
Definition lower_char (c : ascii) : ascii :=
  let n := nat_of_ascii c in
  if (65 <=? n)%nat && (n <=? 90)%nat then ascii_of_nat (n + 32) else c.

Fixpoint lower (s : string) : string :=
  match s with
  | EmptyString => EmptyString
  | String c rest => String (lower_char c) (lower rest)
  end.

Definition SUPPORTED_FORMATS : list string :=
  ["jpeg"; "jpg"; "png"; "webp"; "avif"; "gif"].

Definition is_supported_format (format_str : string) : bool :=
  existsb (String.eqb (lower format_str)) SUPPORTED_FORMATS.

End UtilsRest.

(* ================================================================= *)
(** ** dam_sdk/models.py, the rest *)

Module ModelsRest.
Import Py.

(** The [Folder] dataclass. *)
Record Folder := mk_Folder {
  id : value;
  name : value;
  path : value;
  user_id : value;
  parent_folder_id : value;
  description : value;
  color : value;
  created_at : value;
  updated_at : value
}.

Definition required_fields : list string := ["id"; "name"; "path"; "user_id"].

Definition optional_fields : list string :=
  ["parent_folder_id"; "description"; "color"; "created_at"; "updated_at"].

Definition known_field (k : string) : bool :=
  existsb (String.eqb k) (required_fields ++ optional_fields).

(** The constructor call with the entries of [data] as keyword arguments. *)
Definition Folder_init (data : dict) : result Folder :=
  if negb (forallb (fun kv => known_field (fst kv)) data) then
    Raise (Foreign builtin_TypeError "unexpected keyword argument")
  else if negb (forallb (fun k => has_key k data) required_fields) then
    Raise (Foreign builtin_TypeError "missing required positional arguments")
  else
    Return {|
      id := get data "id";
      name := get data "name";
      path := get data "path";
      user_id := get data "user_id";
      parent_folder_id := get_default data "parent_folder_id" VNone;
      description := get_default data "description" VNone;
      color := get_default data "color" VNone;
      created_at := get_default data "created_at" VNone;
      updated_at := get_default data "updated_at" VNone
    |}.

(** [Folder.from_dict(data)] *)
Definition from_dict (fromisoformat : string -> option datetime)
    (data : value) : result Folder :=
  match data with
  | VDict d =>
      let created_at := get d "created_at" in
      let updated_at := get d "updated_at" in
      d <- Models.convert_timestamp fromisoformat "created_at" created_at d ;;
      d <- Models.convert_timestamp fromisoformat "updated_at" updated_at d ;;
      Folder_init d
  | _ => Raise (Foreign builtin_AttributeError "get")
  end.

Record FileListResponse := mk_FileListResponse {
  flr_success : value;
  flr_data : list Models.File;
  flr_pagination : value
}.

Record SearchOptions := mk_SearchOptions {
  so_folder_id : option string;
  so_mime_type : option string;
  so_search : option string;
  so_limit : Z;
  so_offset : Z;
  so_sort : string;
  so_order : string
}.

(** [SearchOptions()] *)
Definition SearchOptions_default : SearchOptions :=
  {| so_folder_id := None; so_mime_type := None; so_search := None;
     so_limit := 50; so_offset := 0; so_sort := "created_at";
     so_order := "desc" |}.

End ModelsRest.

(* ================================================================= *)
(** ** dam_sdk/client.py, the rest *)

Module ClientRest.
Import Py Utils Models Constants Client.

(** [s.rstrip(c)] for a one-character [c] *)
Fixpoint rstrip (c : ascii) (s : string) : string :=
  match s with
  | EmptyString => EmptyString
  | String a rest =>
      match rstrip c rest with
      | EmptyString =>
          if Ascii.eqb a c then EmptyString else String a EmptyString
      | String b r => String a (String b r)
      end
  end.

(** What [DAMClient.__init__] stores of its arguments that [_request]
    reads: the base URL without trailing slashes, and the timeout. *)
Definition DAMClient__init__ (api_url : string) (timeout : Z) : DAMClient :=
  {| api_url := rstrip "/" api_url; timeout := timeout |}.

(** The entries of [ENDPOINTS] with [.format(id=file_id)] applied. *)
Definition ENDPOINT_files_list : string := "/api/public/files".
Definition ENDPOINT_stats_dashboard : string := "/api/stats/dashboard".
Definition ENDPOINT_stats_storage : string := "/api/stats/storage".

Definition ENDPOINT_file_detail (file_id : string) : string :=
  "/api/public/files/" ++ file_id.

Definition ENDPOINT_file_delete (file_id : string) : string :=
  "/api/public/files/" ++ file_id.

Definition ENDPOINT_transform (file_id : string) : string :=
  "/api/transform/" ++ file_id.

Definition ENDPOINT_thumbnail (file_id : string) : string :=
  "/api/transform/" ++ file_id ++ "/thumbnail".

Definition optional_str (s : option string) : qvalue :=
  match s with
  | Some t => QStr t
  | None => QNone
  end.

(** [options or SearchOptions()] *)
Definition search_options_or_default (options : option ModelsRest.SearchOptions)
  : ModelsRest.SearchOptions :=
  match options with
  | Some o => o
  | None => ModelsRest.SearchOptions_default
  end.

(** The [params] dict of [list_files]. *)
Definition list_files_params (options : option ModelsRest.SearchOptions)
  : list (string * qvalue) :=
  let options := search_options_or_default options in
  [ ("folder_id", optional_str (ModelsRest.so_folder_id options));
    ("mime_type", optional_str (ModelsRest.so_mime_type options));
    ("search", optional_str (ModelsRest.so_search options));
    ("limit", QInt (ModelsRest.so_limit options));
    ("offset", QInt (ModelsRest.so_offset options));
    ("sort", QStr (ModelsRest.so_sort options));
    ("order", QStr (ModelsRest.so_order options)) ].

(** The part of [list_files] that turns [response_data] into a
    [FileListResponse]. *)
Definition to_file_list_response (fromisoformat : string -> option datetime)
    (response_data : value) : result ModelsRest.FileListResponse :=
  data <- method_get response_data "data" (VList []) ;;
  items <- iterate data ;;
  files <- map_result (from_dict fromisoformat) items ;;
  success <- method_get response_data "success" (VBool false) ;;
  pagination <- method_get response_data "pagination" (VDict []) ;;
  Return {| ModelsRest.flr_success := success;
            ModelsRest.flr_data := files;
            ModelsRest.flr_pagination := pagination |}.

Definition get_file (env : Env) (self : DAMClient) (file_id : string) : M File :=
  let endpoint := ENDPOINT_file_detail file_id in
  response_data <~ _request env self "GET" endpoint [] [] ;;
  file_data <~ lift (method_get response_data "data" (VDict [])) ;;
  lift (from_dict (fromisoformat env) file_data).

Definition delete_file (env : Env) (self : DAMClient) (file_id : string)
  : M value :=
  let endpoint := ENDPOINT_file_delete file_id in
  response_data <~ _request env self "DELETE" endpoint [] [] ;;
  lift (method_get response_data "success" (VBool false)).

Definition get_dashboard_stats (env : Env) (self : DAMClient) : M value :=
  response_data <~ _request env self "GET" ENDPOINT_stats_dashboard [] [] ;;
  lift (method_get response_data "data" (VDict [])).

Definition get_storage_stats (env : Env) (self : DAMClient) : M value :=
  response_data <~ _request env self "GET" ENDPOINT_stats_storage [] [] ;;
  lift (method_get response_data "data" (VDict [])).

(** [get_file_url]; a [TransformOptions] object is always truthy. *)
Definition get_file_url (self : DAMClient) (file_id : string)
    (transform_options : option TransformOptions) : string :=
  let endpoint :=
    match transform_options with
    | Some transform_options =>
        let params := to_query_params transform_options in
        let query_string :=
          build_query_params (map (fun kv => (fst kv, QStr (snd kv))) params) in
        ENDPOINT_transform file_id ++ query_string
    | None => ENDPOINT_transform file_id
    end in
  api_url self ++ endpoint.

Definition get_thumbnail_url (self : DAMClient) (file_id : string) (size : Z)
  : string :=
  let endpoint := ENDPOINT_thumbnail file_id in
  api_url self ++ endpoint ++ "?size=" ++ str_int size.

End ClientRest.

(* ================================================================= *)
(** ** dam_sdk/async_client.py, the rest *)

Module AsyncRest.
Import Py Utils Models Constants AsyncClient.

(** What the client hands to [session.request]: method, URL, query
    parameters, and the form with its file field. *)
Record AioRequest := mk_AioRequest {
  aio_method : string;
  aio_url : string;
  aio_params : list (string * qvalue);
  aio_form : list (string * Client.form_value);
  aio_file : option Client.Part
}.

(** The surroundings of the client.  [session_request] is the outcome of
    [session.request]; [writes_payload] tells whether the request gets as far
    as its body: aiohttp's writer of a file payload reads the file to its end
    and then closes it itself. *)
Record AsyncEnv := mk_AsyncEnv {
  getsize : string -> option Z;
  openable : string -> bool;
  guess_type : string -> option string;
  fromisoformat : string -> option datetime;
  json_loads : string -> option value;
  session_request : AioRequest -> result AioResponse;
  writes_payload : AioRequest -> bool
}.

(** The state of the client and of its surroundings: whether [self.session]
    is set, how many sessions were created and closed, the files opened and
    closed, the requests made. *)
Record AsyncState := mk_AsyncState {
  session : bool;
  sessions_created : nat;
  sessions_closed : nat;
  opened : list string;
  closed : list Client.fileobj;
  sent : list AioRequest
}.

Definition initial : AsyncState :=
  {| session := false; sessions_created := 0; sessions_closed := 0;
     opened := []; closed := []; sent := [] |}.

Definition AM (A : Type) := AsyncState -> result A * AsyncState.

Definition bindA {A B : Type} (m : AM A) (k : A -> AM B) : AM B :=
  fun st =>
    match m st with
    | (Return a, st') => k a st'
    | (Raise e, st') => (Raise e, st')
    end.

Notation "x <~~ c1 ;; c2" := (bindA c1 (fun x => c2))
  (at level 61, c1 at next level, right associativity).

Definition liftA {A : Type} (r : result A) : AM A := fun st => (r, st).

Definition _ensure_session (st : AsyncState) : AsyncState :=
  if session st then st
  else {| session := true; sessions_created := S (sessions_created st);
          sessions_closed := sessions_closed st;
          opened := opened st; closed := closed st; sent := sent st |}.

(** [close] *)
Definition close (st : AsyncState) : AsyncState :=
  if session st then
    {| session := false; sessions_created := sessions_created st;
       sessions_closed := S (sessions_closed st);
       opened := opened st; closed := closed st; sent := sent st |}
  else st.

(** [__aenter__] and [__aexit__] *)
Definition __aenter__ (st : AsyncState) : AsyncState := _ensure_session st.
Definition __aexit__ (st : AsyncState) : AsyncState := close st.

(** The files that the transport closes while it makes a request: the file of
    the form, once its payload has been written. *)
Definition payload_closes (env : AsyncEnv) (request : AioRequest)
  : list Client.fileobj :=
  match aio_file request with
  | Some part =>
      if writes_payload env request then [Client.part_file part] else []
  | None => []
  end.

(** [_request] as a whole: the session is ensured, the request is made, and
    the outcome is treated as [AsyncClient._request] describes. *)
Definition _request (env : AsyncEnv) (self : AsyncDAMClient)
    (method endpoint : string) (params : list (string * qvalue))
    (form : list (string * Client.form_value)) (file : option Client.Part)
  : AM value :=
  fun st =>
    let st := _ensure_session st in
    let request :=
      {| aio_method := method; aio_url := api_url self ++ endpoint;
         aio_params := params; aio_form := form; aio_file := file |} in
    let st' :=
      {| session := session st; sessions_created := sessions_created st;
         sessions_closed := sessions_closed st;
         opened := opened st;
         closed := (closed st ++ payload_closes env request)%list;
         sent := sent st ++ [request] |} in
    (AsyncClient._request (json_loads env) self (session_request env request),
     st').

Definition open_rb (env : AsyncEnv) (path : string) : AM Client.fileobj :=
  fun st =>
    if openable env path then
      (Return (Client.Opened (List.length (opened st))),
       {| session := session st; sessions_created := sessions_created st;
          sessions_closed := sessions_closed st;
          opened := opened st ++ [path]; closed := closed st;
          sent := sent st |})
    else (Raise (Foreign builtin_OSError path), st).

(** [f.close()], which the [with] statement calls when its block is left; on
    a file that is closed already it does nothing, and it is recorded all the
    same. *)
Definition close_file (f : Client.fileobj) (st : AsyncState) : AsyncState :=
  {| session := session st; sessions_created := sessions_created st;
     sessions_closed := sessions_closed st;
     opened := opened st; closed := closed st ++ [f]; sent := sent st |}.

(** The fields that [upload_file] adds to the form before the file. *)
Definition upload_form (options : UploadOptions)
  : list (string * Client.form_value) :=
  let data : list (string * Client.form_value) := [] in
  let data :=
    match str_set (uo_folder_id options) with
    | Some f => (data ++ [("folder_id", Client.FormStr f)])%list
    | None => data
    end in
  let data :=
    match uo_metadata options with
    | Some (x :: m) => (data ++ [("metadata", Client.FormJson (x :: m))])%list
    | _ => data
    end in
  data.

Definition upload_file (env : AsyncEnv) (self : AsyncDAMClient)
    (file_path : Client.file_arg) (options : option UploadOptions) : AM File :=
  fun st =>
    let options := Client.options_or_default options in
    let st := _ensure_session st in
    match file_path with
    | Client.PathArg file_path =>
        (ok <~~ liftA (validate_file_size (getsize env) file_path
                         (100 * 1024 * 1024)) ;;
         if negb ok then
           liftA (Raise (FileTooLargeError
                           (Arg (VStr "File exceeds maximum size"))))
         else
           let filename := sanitize_filename file_path in
           let mime_type := get_file_mimetype (guess_type env) file_path in
           let data := upload_form options in
           f <~~ open_rb env file_path ;;
           response_data <~~
             (fun st =>
                let (r, st') :=
                  _request env self "POST" "/api/public/single" [] data
                    (Some {| Client.part_field := "file";
                             Client.part_filename := filename;
                             Client.part_file := f;
                             Client.part_mime := mime_type |}) st in
                (r, close_file f st')) ;;
           file_data <~~ liftA (Client.method_get response_data "data" (VDict [])) ;;
           liftA (from_dict (fromisoformat env) file_data)) st
    | Client.ObjArg _ =>
        (Raise (Foreign builtin_NotImplementedError
                  "File-like objects not yet supported in async client"), st)
    end.

(** The [params] dict of the asynchronous [list_files]. *)
Definition list_files_params (options : option ModelsRest.SearchOptions)
  : list (string * qvalue) :=
  let options := ClientRest.search_options_or_default options in
  [ ("folder_id", ClientRest.optional_str (ModelsRest.so_folder_id options));
    ("mime_type", ClientRest.optional_str (ModelsRest.so_mime_type options));
    ("search", ClientRest.optional_str (ModelsRest.so_search options));
    ("limit", QInt (ModelsRest.so_limit options));
    ("offset", QInt (ModelsRest.so_offset options)) ].

Definition list_files (env : AsyncEnv) (self : AsyncDAMClient)
    (options : option ModelsRest.SearchOptions)
  : AM ModelsRest.FileListResponse :=
  let params := list_files_params options in
  response_data <~~ _request env self "GET" "/api/public/files" params [] None ;;
  liftA (ClientRest.to_file_list_response (fromisoformat env) response_data).

Definition get_file (env : AsyncEnv) (self : AsyncDAMClient) (file_id : string)
  : AM File :=
  let endpoint := "/api/public/files/" ++ file_id in
  response_data <~~ _request env self "GET" endpoint [] [] None ;;
  file_data <~~ liftA (Client.method_get response_data "data" (VDict [])) ;;
  liftA (from_dict (fromisoformat env) file_data).

Definition delete_file (env : AsyncEnv) (self : AsyncDAMClient)
    (file_id : string) : AM value :=
  let endpoint := "/api/public/files/" ++ file_id in
  response_data <~~ _request env self "DELETE" endpoint [] [] None ;;
  liftA (Client.method_get response_data "success" (VBool false)).

End AsyncRest.


(* ================================================================= *)
(** * The terms of the properties

    What the statements below speak of: the effect of an operation described
    independently of the way the code computes it, and sample inputs. *)

Module UtilsTerms.
Import Py Utils.





Definition is_None (v : qvalue) : bool :=
  match v with QNone => true | _ => false end.

(** The entries whose value is not None, in their order. *)
Definition present (params : list (string * qvalue)) : list (string * qvalue) :=
  filter (fun kv => negb (is_None (snd kv))) params.

Definition key_value (kv : string * qvalue) : string :=
  fst kv ++ "=" ++ format_value (snd kv).

End UtilsTerms.

Module ModelsTerms.
Import Py Models.

Definition sample_File (mime : string) : File :=
  {| id := VStr "file-123"; filename := VStr "test.jpg";
     original_name := VStr "test.jpg"; mime_type := VStr mime;
     size := VInt 1024; storage_path := VStr "user-123/root/test.jpg";
     file_url := VStr "http://example.com/file.jpg";
     user_id := VStr "user-123"; folder_id := VNone; width := VNone;
     height := VNone; duration := VNone; metadata := VDict [];
     checksum := VNone; is_public := VBool true; download_count := VInt 0;
     created_at := VNone; updated_at := VNone |}.

(** How a numeric field and a string field appear among the parameters. *)
Definition numeric (n : option Z) : option string :=
  match n with
  | Some z => if z =? 0 then None else Some (str_int z)
  | None => None
  end.

Definition textual (s : option string) : option string :=
  match s with
  | Some t => if (t =? "")%string then None else Some t
  | None => None
  end.

Definition transform_keys : list string :=
  ["w"; "h"; "fit"; "format"; "quality"; "blur"; "grayscale"; "rotate"].

(** The shapes of the parts of an ISO-8601 timestamp, character by
    character. *)
Definition is_digit (c : ascii) : bool :=
  (48 <=? nat_of_ascii c)%nat && (nat_of_ascii c <=? 57)%nat.

Definition is_sign (c : ascii) : bool :=
  Ascii.eqb c "+" || Ascii.eqb c "-".

Inductive shape :=
| digit
| sign
| exactly (c : ascii).

Definition fits (sh : shape) (c : ascii) : bool :=
  match sh with
  | digit => is_digit c
  | sign => is_sign c
  | exactly x => Ascii.eqb c x
  end.

Fixpoint has_shape (p : list shape) (s : string) : bool :=
  match p, s with
  | [], EmptyString => true
  | sh :: p', String c s' => fits sh c && has_shape p' s'
  | _, _ => false
  end.

(** A date: YYYY-MM-DD. *)
Definition is_date : string -> bool :=
  has_shape [digit; digit; digit; digit; exactly "-"%char; digit; digit;
             exactly "-"%char; digit; digit].

(** A time of day: hh:mm:ss. *)
Definition is_clock : string -> bool :=
  has_shape [digit; digit; exactly ":"%char; digit; digit; exactly ":"%char;
             digit; digit].

(** An explicit UTC offset: a sign and hh:mm. *)
Definition is_offset : string -> bool :=
  has_shape [sign; digit; digit; exactly ":"%char; digit; digit].

Fixpoint all_digits (s : string) : bool :=
  match s with
  | EmptyString => true
  | String c rest => is_digit c && all_digits rest
  end.

(** The fraction of a second, if any: a point and digits. *)
Definition is_fraction (f : string) : bool :=
  match f with
  | EmptyString => true
  | String p digits =>
      Ascii.eqb p "." && negb (digits =? "")%string && all_digits digits
  end.

(** What stands between the date and the time of day: a T or a space. *)
Definition is_sep (c : ascii) : bool :=
  Ascii.eqb c "T" || Ascii.eqb c " ".

(** A local time: a date, a T or a space, and a time of day with an optional
    fraction of a second, as in 2024-01-01T10:00:00 and
    2024-01-01 10:00:00.250. *)
Definition is_local (l : string) : Prop :=
  exists d sep c f,
    l = d ++ String sep (c ++ f)
    /\ is_date d = true /\ is_sep sep = true
    /\ is_clock c = true /\ is_fraction f = true.

(** The timestamp names its timezone: a local time followed by Z or by an
    explicit offset. *)
Definition carries_offset (s : string) : Prop :=
  exists l,
    is_local l
    /\ (s = l ++ "Z" \/ exists o, is_offset o = true /\ s = l ++ o).

(** The parser reads an explicit offset after a local time as the timezone of
    the datetime it returns. *)
Definition reads_offsets (parser : string -> option datetime) : Prop :=
  forall l o t,
    is_local l -> is_offset o = true ->
    parser (l ++ o) = Some t -> dt_utcoffset t <> None.

(** The dicts the constructor of [File] accepts: every key names a field and
    every field without a default is there. *)
Definition accepted (d : dict) : bool :=
  forallb (fun kv => known_field (fst kv)) d
  && forallb (fun k => has_key k d) required_fields.

(** The timestamp under [key] is a non-empty string that the parser refuses. *)
Definition rejected (parser : string -> option datetime) (d : dict)
    (key : string) : bool :=
  match lookup key d with
  | Some (VStr s) =>
      negb (s =? "")%string
      && match parser (normalize_Z s) with Some _ => false | None => true end
  | _ => false
  end.

(** How the field of the [File] relates to what the dict had under its key. *)
Definition timestamp_field (parser : string -> option datetime)
    (given : option value) (field : value) : Prop :=
  match given with
  | None => field = VNone
  | Some (VStr s) =>
      if (s =? "")%string then field = VStr ""
      else exists t, parser (normalize_Z s) = Some t /\ field = VDatetime t
  | Some v => field = v
  end.

(** A field given as a local time followed by Z or by an explicit offset
    holds a timezone-aware datetime. *)
Definition aware_field (given : option value) (field : value) : Prop :=
  forall s, given = Some (VStr s) -> carries_offset s ->
  exists t, field = VDatetime t /\ dt_utcoffset t <> None.

(** A payload of the test suite, with the given timestamps. *)
Definition sample_payload (created updated : option value) : dict :=
  ([ ("id", VStr "file-123"); ("filename", VStr "test.jpg");
    ("original_name", VStr "test.jpg"); ("mime_type", VStr "image/jpeg");
    ("size", VInt 1024); ("storage_path", VStr "user-123/root/test.jpg");
    ("file_url", VStr "http://example.com/file.jpg");
    ("user_id", VStr "user-123") ]
  ++ match created with Some v => [("created_at", v)] | None => [] end
  ++ match updated with Some v => [("updated_at", v)] | None => [] end)%list.

(** A stand-in for [datetime.fromisoformat] that knows the timestamp of the
    test suite and refuses every other string. *)
Definition sample_datetime : datetime :=
  {| dt_year := 2024; dt_month := 1; dt_day := 1; dt_hour := 10;
     dt_minute := 0; dt_second := 0; dt_microsecond := 0;
     dt_utcoffset := Some 0 |}.

Definition sample_fromisoformat (s : string) : option datetime :=
  if (s =? "2024-01-01T10:00:00+00:00")%string then Some sample_datetime
  else None.

(** Two more strings that [datetime.fromisoformat] accepts, with what it
    returns for them.  The local time 2024-01-01T10:00:00 gives a naive
    datetime, one whose [tzinfo] is None.  In 2024-01-01+00:00, which is what
    the date 2024-01-01Z becomes, the parser takes the sign for the character
    between date and time and 00:00 for the time of day: it gives the naive
    datetime of that midnight. *)
Definition sample_local_datetime : datetime :=
  {| dt_year := 2024; dt_month := 1; dt_day := 1; dt_hour := 10;
     dt_minute := 0; dt_second := 0; dt_microsecond := 0;
     dt_utcoffset := None |}.

Definition sample_midnight : datetime :=
  {| dt_year := 2024; dt_month := 1; dt_day := 1; dt_hour := 0;
     dt_minute := 0; dt_second := 0; dt_microsecond := 0;
     dt_utcoffset := None |}.

Definition sample_fromisoformat_local (s : string) : option datetime :=
  if (s =? "2024-01-01T10:00:00")%string then Some sample_local_datetime
  else if (s =? "2024-01-01+00:00")%string then Some sample_midnight
  else sample_fromisoformat s.

(** The rule as the specification words it: whenever a timestamp is a string
    that the parser refuses, [from_dict] raises. *)
Definition malformed_timestamp_raises (parser : string -> option datetime)
    (d : dict) : Prop :=
  forall key s,
    key = "created_at" \/ key = "updated_at" ->
    lookup key d = Some (VStr s) ->
    parser (normalize_Z s) = None ->
    raises (from_dict parser (VDict d)) = true.

(** The rule as the specification words it: whenever a timestamp is a string
    that the parser accepts, the field of the File is a timezone-aware
    datetime. *)
Definition parsed_timestamp_aware (parser : string -> option datetime)
    (d : dict) : Prop :=
  forall s f,
    lookup "created_at" d = Some (VStr s) ->
    parser (normalize_Z s) <> None ->
    from_dict parser (VDict d) = Return f ->
    exists t, created_at f = VDatetime t /\ dt_utcoffset t <> None.

End ModelsTerms.

Module ClassifierTerms.
Import Py Client.

(** The six statuses with an error class of their own. *)
Definition typed_statuses : list Z := [401; 403; 404; 413; 422; 429].

Definition server_message (status : Z) (msg : value) : pyarg :=
  FString [Lit "Server error "; Subst (VInt status); Lit ": "; Subst msg].

Definition api_message (status : Z) (msg : value) : pyarg :=
  FString [Lit "API error "; Subst (VInt status); Lit ": "; Subst msg].

(** The first truthy one of the message field, the error field and the
    literal. *)
Definition preferred_message (d : dict) : value :=
  if truthy (get d "message") then get d "message"
  else if truthy (get d "error") then get d "error"
  else VStr "Unknown error".

(** A body that is valid JSON but not an object: the array [[]]. *)
Definition array_response (status : Z) : Response :=
  {| status_code := status; text := "[]"; json := Some (VList []) |}.

(** The preference order as the specification words it: the message field if
    present, else the error field, else the literal. *)
Definition message_if_present (d : dict) : value :=
  match lookup "message" d with
  | Some m => m
  | None =>
      match lookup "error" d with
      | Some e => e
      | None => VStr "Unknown error"
      end
  end.

(** A 503 response with an error field and no message field. *)
Definition unavailable_response : Response :=
  {| status_code := 503; text := "";
     json := Some (VDict [("error", VStr "down")]) |}.

(** The text under the message key of the synthesized envelope. *)
Definition envelope_text (text : string) : string :=
  if (text =? "")%string then "Unknown error" else text.

End ClassifierTerms.

Module UploadTerms.
Import Py Utils Models Constants Client.

Definition too_large_message : pyarg :=
  FString [Lit "File exceeds maximum size of "; Subst (VInt MAX_FILE_SIZE);
           Lit " bytes"].

(** A server that answers every request with an empty JSON object. *)
Definition sample_server (request : Request) : result Response :=
  Return {| status_code := 200; text := "{}"; json := Some (VDict []) |}.

(** A filesystem with a small file a.bin and a file b.bin one byte over the
    maximum; every file can be opened. *)
Definition sample_env : Env :=
  {| getsize := fun path =>
       if (path =? "a.bin")%string then Some 10
       else if (path =? "b.bin")%string then Some (MAX_FILE_SIZE + 1)
       else None;
     openable := fun _ => true;
     guess_type := fun _ => None;
     fromisoformat := ModelsTerms.sample_fromisoformat;
     session_request := sample_server |}.

Definition sample_client : DAMClient :=
  {| api_url := "http://localhost:55055"; timeout := 30 |}.

(** The same surroundings with a transport that fails with [e]. *)
Definition failing_env (e : exn) : Env :=
  {| getsize := getsize sample_env;
     openable := openable sample_env;
     guess_type := guess_type sample_env;
     fromisoformat := fromisoformat sample_env;
     session_request := fun _ => Raise e |}.

(** How often [f.close()] was called. *)
Definition close_count (f : fileobj) (closes : list fileobj) : nat :=
  List.length (filter (fileobj_eqb f) closes).


End UploadTerms.

Module AsyncTerms.
Import Py Client AsyncClient.

(** The [TypeError] of an [except] clause that names a class which is not an
    exception. *)
Definition cannot_catch : exn :=
  Foreign builtin_TypeError
    "catching classes that do not inherit from BaseException is not allowed".

Definition sample_json_loads (text : string) : option value :=
  if (text =? "{}")%string then Some (VDict []) else None.

Definition sample_async_client : AsyncDAMClient :=
  {| AsyncClient.api_url := "http://localhost:55055";
     timeout_repr := "ClientTimeout(total=30)" |}.

(** A 404 response whose body is the text Not Found. *)
Definition not_found_response : AioResponse :=
  {| status := 404; body_text := "Not Found";
     body_json := Raise (Foreign aiohttp_ContentTypeError "unexpected mimetype") |}.

End AsyncTerms.

Module UtilsRestTerms.
Import Py Utils UtilsRest.

(** The lengths of the pieces when [len] bytes are cut into pieces of [n]. *)
Definition piece_lengths (n len : nat) : list nat :=
  (repeat n (len / n)
   ++ (if (len mod n =? 0)%nat then [] else [(len mod n)%nat]))%list.

(** Which unit [format_bytes] picks: 0 for B up to 5 for PB. *)
Definition unit_index (size : Z) : Z :=
  if size <? 1024 then 0
  else if size <? 1024 ^ 2 then 1
  else if size <? 1024 ^ 3 then 2
  else if size <? 1024 ^ 4 then 3
  else if size <? 1024 ^ 5 then 4
  else 5.

Definition unit_name (k : Z) : string :=
  if k =? 0 then "B"
  else if k =? 1 then "KB"
  else if k =? 2 then "MB"
  else if k =? 3 then "GB"
  else if k =? 4 then "TB"
  else "PB".

(** [s.upper()] on the ASCII letters *)
Definition upper_char (c : ascii) : ascii :=
  let n := nat_of_ascii c in
  if (97 <=? n)%nat && (n <=? 122)%nat then ascii_of_nat (n - 32) else c.

Fixpoint upper (s : string) : string :=
  match s with
  | EmptyString => EmptyString
  | String c rest => String (upper_char c) (upper rest)
  end.

(** A file of ten bytes. *)
Definition ten_bytes : list Byte.byte :=
  [Byte.x00; Byte.x01; Byte.x02; Byte.x03; Byte.x04; Byte.x05; Byte.x06;
   Byte.x07; Byte.x08; Byte.x09].

Definition one_file (path : string) : option (list Byte.byte) :=
  if (path =? "data.bin")%string then Some ten_bytes else None.

(** The read lengths that [f.read] serves on a machine with memory for
    [limit] bytes: -1, and those from 0 to [limit] and [max_bytes]. *)
Definition served (limit : N) (n : Z) : Prop :=
  n = -1 \/ (0 <= n <= Z.of_N limit /\ n <= max_bytes).

(** A machine with memory for a gigabyte. *)
Definition sample_limit : N := 2 ^ 30.

End UtilsRestTerms.

Module ModelsRestTerms.
Import Py.

(** The dicts the constructor of [Folder] accepts. *)
Definition folder_accepted (d : dict) : bool :=
  forallb (fun kv => ModelsRest.known_field (fst kv)) d
  && forallb (fun k => has_key k d) ModelsRest.required_fields.

(** A payload of a file with a field the dataclass does not declare. *)
Definition payload_with_extra_field : dict :=
  (ModelsTerms.sample_payload (Some (VStr "2024-01-01T10:00:00Z")) None
   ++ [("thumbnail_url", VStr "http://example.com/t.jpg")])%list.

End ModelsRestTerms.

Module ClientRestTerms.
Import Py Utils Models Constants Client ClientRest.

(** The request that [_request] builds. *)
Definition request_of (self : DAMClient) (method endpoint : string)
    (files : list Part) (data : list (string * form_value)) : Request :=
  {| req_method := method; req_url := api_url self ++ endpoint;
     req_files := files; req_data := data |}.

(** A transport outcome that the SDK knows how to report: a response whose
    body is a JSON object or does not parse, or an exception of requests. *)
Definition reportable (outcome : result Response) : Prop :=
  match outcome with
  | Return r => exists d, parse_body r = VDict d
  | Raise e => isinstance e requests_RequestException = true
  end.

Definition sdk_outcome {A : Type} (r : result A) : Prop :=
  match r with
  | Return _ => True
  | Raise e => is_DAMError e = true
  end.

(** The file at [path] can be sized, is within the limit and can be opened. *)
Definition uploadable (env : Env) (path : string) : bool :=
  match getsize env path with
  | Some file_size => (file_size <=? MAX_FILE_SIZE) && openable env path
  | None => false
  end.






(** A run of [n] slashes. *)
Fixpoint slashes (n : nat) : string :=
  match n with
  | O => EmptyString
  | S n' => String "/" (slashes n')
  end.

(** The last character of [s] is a slash. *)
Fixpoint ends_with_slash (s : string) : bool :=
  match s with
  | EmptyString => false
  | String c EmptyString => Ascii.eqb c "/"
  | String _ rest => ends_with_slash rest
  end.

(** One parameter as it stands in the query string. *)
Definition raw_pair (kv : string * string) : string := fst kv ++ "=" ++ snd kv.

(** A server that answers with status 200 and the given parsed body. *)
Definition answering (body : value) : Env :=
  {| getsize := fun _ => None;
     openable := fun _ => false;
     guess_type := fun _ => None;
     fromisoformat := ModelsTerms.sample_fromisoformat;
     session_request := fun _ =>
       Return {| status_code := 200; text := ""; json := Some body |} |}.

(** A 200 reply with one file payload under data. *)
Definition one_file_listing : dict :=
  [ ("success", VBool true);
    ("data", VList [VDict (ModelsTerms.sample_payload None None)]) ].

(** A 200 reply of the multiple upload with one uploaded file and one
    failure. *)
Definition one_uploaded : dict :=
  [ ("uploaded", VList [VDict (ModelsTerms.sample_payload None None)]);
    ("failed", VList [VDict [("name", VStr "b.bin")]]) ].

End ClientRestTerms.

Module AsyncRestTerms.
Import Py Utils Models Constants AsyncClient AsyncRest.

(** The request that the asynchronous [_request] builds. *)
Definition aio_request_of (self : AsyncDAMClient) (method endpoint : string)
    (params : list (string * qvalue))
    (form : list (string * Client.form_value)) (file : option Client.Part)
  : AioRequest :=
  {| aio_method := method; aio_url := api_url self ++ endpoint;
     aio_params := params; aio_form := form; aio_file := file |}.

(** The file at [path] can be sized, is within [MAX_FILE_SIZE] and can be
    opened. *)
Definition uploadable (env : AsyncEnv) (path : string) : bool :=
  match getsize env path with
  | Some file_size => (file_size <=? MAX_FILE_SIZE) && openable env path
  | None => false
  end.

Definition file_part (env : AsyncEnv) (path : string) (n : nat) : Client.Part :=
  {| Client.part_field := "file";
     Client.part_filename := sanitize_filename path;
     Client.part_file := Client.Opened n;
     Client.part_mime := get_file_mimetype (guess_type env) path |}.

(** The request of an upload of the file at [path], opened as the file
    numbered [n]. *)
Definition upload_request (env : AsyncEnv) (self : AsyncDAMClient)
    (path : string) (options : option UploadOptions) (n : nat) : AioRequest :=
  aio_request_of self "POST" "/api/public/single" []
    (upload_form (Client.options_or_default options))
    (Some (file_part env path n)).

(** The calls a user can make on an asynchronous client. *)
Inductive call :=
| CallEnter
| CallExit
| CallClose
| CallUpload (file_path : Client.file_arg) (options : option UploadOptions)
| CallList (options : option ModelsRest.SearchOptions)
| CallGet (file_id : string)
| CallDelete (file_id : string).

(** The state after one call, and after a sequence of calls. *)
Definition after_call (env : AsyncEnv) (self : AsyncDAMClient) (c : call)
    (st : AsyncState) : AsyncState :=
  match c with
  | CallEnter => __aenter__ st
  | CallExit => __aexit__ st
  | CallClose => close st
  | CallUpload file_path options => snd (upload_file env self file_path options st)
  | CallList options => snd (list_files env self options st)
  | CallGet file_id => snd (get_file env self file_id st)
  | CallDelete file_id => snd (delete_file env self file_id st)
  end.

Definition after_calls (env : AsyncEnv) (self : AsyncDAMClient)
    (calls : list call) (st : AsyncState) : AsyncState :=
  fold_left (fun st c => after_call env self c st) calls st.

(** The sessions that were created and not closed. *)
Definition live_sessions (st : AsyncState) : nat :=
  (sessions_created st - sessions_closed st)%nat.

(** An asynchronous transport that answers with status 200 and the given
    parsed body; a.bin is a small file. *)
Definition answering (body : value) : AsyncEnv :=
  {| getsize := fun path => if (path =? "a.bin")%string then Some 10 else None;
     openable := fun _ => true;
     guess_type := fun _ => None;
     fromisoformat := ModelsTerms.sample_fromisoformat;
     json_loads := AsyncTerms.sample_json_loads;
     session_request := fun _ =>
       Return {| status := 200; body_text := ""; body_json := Return body |};
     writes_payload := fun _ => true |}.

End AsyncRestTerms.

(* ================================================================= *)
(** * Properties *)

(* ================================================================= *)
(** ** utils.py: [sanitize_filename] *)

Module UtilsSpec.
Import Py Utils.
Import UtilsTerms.











(* ================================================================= *)
(** ** utils.py: [build_query_params] *)

Lemma query_parts_present (params : list (string * qvalue)) :
  query_parts params = map key_value (present params).
Proof.
  induction params as [|[k v] rest IH]; [reflexivity|].
  destruct v; simpl; rewrite IH; reflexivity.
Qed.

Lemma present_all_None (keys : list string) :
  present (map (fun k => (k, QNone)) keys) = [].
Proof.
  induction keys as [|k keys IH]; [reflexivity | exact IH].
Qed.

(** C8: the query string is built from the entries whose value is not None,
    in order (an entry with value 0 is kept, as key=0); an empty map and a map
    with only None values give the empty string; and the map
    limit:10, offset:0, folder_id:None gives a string that contains
    limit=10&offset=0 and does not contain folder_id. *)
Theorem build_query_params_omits_None :
  (forall params,
      build_query_params params
      = match present params with
        | [] => ""
        | kept => "?" ++ String.concat "&" (map key_value kept)
        end)
  /\ (forall key, build_query_params [(key, QInt 0)] = "?" ++ key ++ "=0")
  /\ build_query_params [] = ""
  /\ (forall keys, build_query_params (map (fun k => (k, QNone)) keys) = "")
  /\ (let q := build_query_params
                 [("limit", QInt 10); ("offset", QInt 0); ("folder_id", QNone)] in
      q = "?limit=10&offset=0"
      /\ substring_in "limit=10&offset=0" q = true
      /\ substring_in "folder_id" q = false).
Proof.
  assert (H : forall params,
             build_query_params params
             = match present params with
               | [] => ""
               | kept => "?" ++ String.concat "&" (map key_value kept)
               end).
  { intro params. unfold build_query_params.
    rewrite query_parts_present.
    destruct params as [|p params]; [reflexivity|].
    destruct (present (p :: params)); reflexivity. }
  split; [exact H|].
  split; [reflexivity|].
  split; [reflexivity|].
  split; [|repeat split; reflexivity].
  intro keys. rewrite H, present_all_None. reflexivity.
Qed.

End UtilsSpec.

(* ================================================================= *)
(** ** models.py: the derived classifications of [File] *)

Module ModelsSpec.
Import Py Models.
Import ModelsTerms.

Lemma image_not_video (s : string) :
  prefix "image/" s && prefix "video/" s = false.
Proof.
  destruct s as [|c s]; [reflexivity|].
  cbn [prefix].
  destruct (ascii_dec "i" c) as [Hi|Hi]; [|reflexivity].
  destruct (ascii_dec "v" c) as [Hv|Hv]; [|apply andb_false_r].
  rewrite <- Hi in Hv. discriminate Hv.
Qed.

Lemma document_not_image (s : string) :
  prefix "image/" s && existsb (String.eqb s) document_types = false.
Proof.
  destruct (existsb (String.eqb s) document_types) eqn:H;
    [|apply andb_false_r].
  apply existsb_exists in H. destruct H as [x [Hin Heq]].
  apply String.eqb_eq in Heq. subst x.
  simpl in Hin.
  destruct Hin as [<-|[<-|[<-|[<-|[<-|[]]]]]]; reflexivity.
Qed.

Lemma document_not_video (s : string) :
  prefix "video/" s && existsb (String.eqb s) document_types = false.
Proof.
  destruct (existsb (String.eqb s) document_types) eqn:H;
    [|apply andb_false_r].
  apply existsb_exists in H. destruct H as [x [Hin Heq]].
  apply String.eqb_eq in Heq. subst x.
  simpl in Hin.
  destruct Hin as [<-|[<-|[<-|[<-|[<-|[]]]]]]; reflexivity.
Qed.

(** C10: for a file whose mime_type is a string, is_image holds exactly when
    it starts with image/, is_video exactly when it starts with video/,
    is_document exactly when it is one of the five document types, and no two
    of the three hold together. *)
Theorem classifications_disjoint (self : File) (s : string) :
  mime_type self = VStr s ->
  exists img vid doc,
    is_image self = Return img /\ img = prefix "image/" s
    /\ is_video self = Return vid /\ vid = prefix "video/" s
    /\ is_document self = Return doc
    /\ doc = existsb (String.eqb s) document_types
    /\ img && vid = false /\ img && doc = false /\ vid && doc = false.
Proof.
  intro H.
  exists (prefix "image/" s), (prefix "video/" s),
         (existsb (String.eqb s) document_types).
  unfold is_image, is_video, is_document, startswith. rewrite H.
  repeat split.
  - apply image_not_video.
  - apply document_not_image.
  - apply document_not_video.
Qed.

Lemma classifications_disjoint_witness :
  mime_type (sample_File "image/jpeg") = VStr "image/jpeg"
  /\ exists img vid doc,
      is_image (sample_File "image/jpeg") = Return img
      /\ img = prefix "image/" "image/jpeg"
      /\ is_video (sample_File "image/jpeg") = Return vid
      /\ vid = prefix "video/" "image/jpeg"
      /\ is_document (sample_File "image/jpeg") = Return doc
      /\ doc = existsb (String.eqb "image/jpeg") document_types
      /\ img && vid = false /\ img && doc = false /\ vid && doc = false.
Proof.
  split; [reflexivity|].
  apply (classifications_disjoint (sample_File "image/jpeg") "image/jpeg").
  reflexivity.
Defined.

(** The three examples of the test suite. *)
Example classification_examples :
  (is_image (sample_File "image/jpeg"), is_video (sample_File "image/jpeg"),
   is_document (sample_File "image/jpeg")) = (Return true, Return false, Return false)
  /\ (is_image (sample_File "video/mp4"), is_video (sample_File "video/mp4"),
      is_document (sample_File "video/mp4")) = (Return false, Return true, Return false)
  /\ (is_image (sample_File "application/pdf"),
      is_video (sample_File "application/pdf"),
      is_document (sample_File "application/pdf"))
     = (Return false, Return false, Return true).
Proof. repeat split. Qed.

(* ================================================================= *)
(** ** models.py: [TransformOptions.to_query_params] *)

Lemma lookup_setitem {A : Type} (k k' : string) (v : A) (d : list (string * A)) :
  lookup k (setitem k' v d) = if (k' =? k)%string then Some v else lookup k d.
Proof.
  induction d as [|[k0 v0] d IH]; simpl.
  - reflexivity.
  - destruct (k0 =? k')%string eqn:E; simpl.
    + apply String.eqb_eq in E. subst k0.
      destruct (k' =? k)%string; reflexivity.
    + destruct (k0 =? k)%string eqn:E'; [|exact IH].
      destruct (k' =? k)%string eqn:E''; [|reflexivity].
      apply String.eqb_eq in E', E''. subst.
      now rewrite String.eqb_refl in E.
Qed.

Lemma lookup_put_map {A : Type} (k k' : string) (f : A -> string)
    (o : option A) (p : list (string * string)) :
  lookup k (put_if (option_map (fun z => (k', f z)) o) p)
  = if (k' =? k)%string
    then match o with Some z => Some (f z) | None => lookup k p end
    else lookup k p.
Proof.
  destruct o as [z|]; simpl.
  - apply lookup_setitem.
  - now destruct (k' =? k)%string.
Qed.

Lemma lookup_put_flag (k k' v : string) (g : bool)
    (p : list (string * string)) :
  lookup k (put_if (if g then Some (k', v) else None) p)
  = if (k' =? k)%string
    then (if g then Some v else lookup k p)
    else lookup k p.
Proof.
  destruct g; simpl; [apply lookup_setitem | now destruct (k' =? k)%string].
Qed.

Lemma keys_put_if (keys : list string) (e : option (string * string))
    (p : list (string * string)) :
  match e with Some (k, _) => existsb (String.eqb k) keys | None => true end = true ->
  forallb (fun kv => existsb (String.eqb (fst kv)) keys) p = true ->
  forallb (fun kv => existsb (String.eqb (fst kv)) keys) (put_if e p) = true.
Proof.
  destruct e as [[k v]|]; [|trivial]. simpl. intros Hk.
  induction p as [|[k0 v0] p IH]; simpl.
  - intros _. now rewrite Hk.
  - intro H. apply andb_true_iff in H. destruct H as [H0 Hp].
    destruct (k0 =? k)%string; simpl; rewrite H0; simpl; auto.
Qed.

Ltac lookup_params :=
  repeat (first [rewrite lookup_put_map | rewrite lookup_put_flag];
          cbn [String.eqb Ascii.eqb Bool.eqb andb]).

(** C7: in the parameters of a TransformOptions value, grayscale appears as
    the string true when it is set and is absent otherwise; each of width,
    height, quality, blur and rotate appears as its decimal string when it is
    present and not zero, and is absent otherwise; fit and format appear when
    they are non-empty; there is no other key; and the default options give
    exactly fit=cover and quality=80. *)
Theorem to_query_params_encoding :
  (forall self,
      let params := to_query_params self in
      lookup "w" params = numeric (to_width self)
      /\ lookup "h" params = numeric (to_height self)
      /\ lookup "fit" params = textual (Some (to_fit self))
      /\ lookup "format" params = textual (to_format self)
      /\ lookup "quality" params = numeric (Some (to_quality self))
      /\ lookup "blur" params = numeric (to_blur self)
      /\ lookup "grayscale" params
         = (if to_grayscale self then Some "true" else None)
      /\ lookup "rotate" params = numeric (to_rotate self)
      /\ forallb (fun kv => existsb (String.eqb (fst kv)) transform_keys)
                 params = true)
  /\ to_query_params TransformOptions_default
     = [("fit", "cover"); ("quality", "80")]
  /\ (str_int 800, str_int 85, str_int (-90)) = ("800", "85", "-90").
Proof.
  split; [|split; reflexivity].
  intros [w h fit fmt q b g r].
  unfold to_query_params, numeric, textual.
  cbn [to_width to_height to_fit to_format to_quality to_blur to_grayscale
       to_rotate].
  repeat split; try (lookup_params; unfold int_set, str_set).
  - destruct w as [w|]; [destruct (w =? 0)|]; reflexivity.
  - destruct h as [h|]; [destruct (h =? 0)|]; reflexivity.
  - destruct (fit =? "")%string; reflexivity.
  - destruct fmt as [fmt|]; [destruct (fmt =? "")%string|]; reflexivity.
  - destruct (q =? 0); reflexivity.
  - destruct b as [b|]; [destruct (b =? 0)|]; reflexivity.
  - destruct g; reflexivity.
  - destruct r as [r|]; [destruct (r =? 0)|]; reflexivity.
  - repeat (apply keys_put_if;
            [ first [ destruct g; reflexivity
                    | match goal with
                      | |- match option_map _ ?o with _ => _ end = true =>
                          destruct o; reflexivity
                      end ] | ]).
    reflexivity.
Qed.

(* ================================================================= *)
(** ** models.py: [File.from_dict] *)

Lemma normalize_Z_app (a b : string) :
  normalize_Z (a ++ b) = normalize_Z a ++ normalize_Z b.
Proof.
  unfold normalize_Z.
  induction a as [|c a IH]; [reflexivity|].
  simpl. rewrite IH. destruct (Ascii.eqb c "Z"); reflexivity.
Qed.

Lemma normalize_Z_cons (c : ascii) (s : string) :
  Ascii.eqb c "Z" = false -> normalize_Z (String c s) = String c (normalize_Z s).
Proof. intro H. unfold normalize_Z. cbn [Utils.replace_char_by]. now rewrite H. Qed.

Lemma digit_not_Z (c : ascii) : is_digit c = true -> Ascii.eqb c "Z" = false.
Proof.
  destruct c as [[] [] [] [] [] [] [] []]; vm_compute; congruence.
Qed.

Lemma sign_not_Z (c : ascii) : is_sign c = true -> Ascii.eqb c "Z" = false.
Proof.
  destruct c as [[] [] [] [] [] [] [] []]; vm_compute; congruence.
Qed.

Lemma sep_not_Z (c : ascii) : is_sep c = true -> Ascii.eqb c "Z" = false.
Proof.
  destruct c as [[] [] [] [] [] [] [] []]; vm_compute; congruence.
Qed.

(** A string whose shape has no Z in it is left as it is. *)
Lemma normalize_Z_shape (p : list shape) :
  Forall (fun sh => forall c, fits sh c = true -> Ascii.eqb c "Z" = false) p ->
  forall s, has_shape p s = true -> normalize_Z s = s.
Proof.
  induction 1 as [|sh p Hsh _ IH]; intros [|c s]; try discriminate;
    [reflexivity|].
  cbn [has_shape]. intro H. apply andb_prop in H. destruct H as [Hc Hs].
  rewrite (normalize_Z_cons c s (Hsh c Hc)). now rewrite (IH s Hs).
Qed.

Ltac no_Z_in_shape :=
  repeat constructor;
  let x := fresh "x" in
  let H := fresh "H" in
  intros x H; cbn [fits] in H;
  first [ exact (digit_not_Z x H) | exact (sign_not_Z x H)
        | apply Ascii.eqb_eq in H; subst x; reflexivity ].

Lemma normalize_Z_date (d : string) : is_date d = true -> normalize_Z d = d.
Proof. apply normalize_Z_shape. no_Z_in_shape. Qed.

Lemma normalize_Z_clock (c : string) : is_clock c = true -> normalize_Z c = c.
Proof. apply normalize_Z_shape. no_Z_in_shape. Qed.

Lemma normalize_Z_offset (o : string) :
  is_offset o = true -> normalize_Z o = o.
Proof. apply normalize_Z_shape. no_Z_in_shape. Qed.

Lemma normalize_Z_digits (s : string) :
  all_digits s = true -> normalize_Z s = s.
Proof.
  induction s as [|c s IH]; [reflexivity|].
  cbn [all_digits]. intro H. apply andb_prop in H. destruct H as [Hc Hs].
  rewrite (normalize_Z_cons c s (digit_not_Z c Hc)). now rewrite (IH Hs).
Qed.

Lemma normalize_Z_fraction (f : string) :
  is_fraction f = true -> normalize_Z f = f.
Proof.
  destruct f as [|p digits]; [reflexivity|].
  cbn [is_fraction]. intro H.
  apply andb_prop in H. destruct H as [H Hd].
  apply andb_prop in H. destruct H as [Hp _].
  apply Ascii.eqb_eq in Hp. subst p.
  rewrite normalize_Z_cons by reflexivity.
  now rewrite (normalize_Z_digits digits Hd).
Qed.

Lemma normalize_Z_local (l : string) : is_local l -> normalize_Z l = l.
Proof.
  intros [d [sep [c [f [-> [Hd [Hsep [Hc Hf]]]]]]]].
  rewrite normalize_Z_app, (normalize_Z_date d Hd).
  rewrite (normalize_Z_cons sep _ (sep_not_Z sep Hsep)).
  rewrite normalize_Z_app, (normalize_Z_clock c Hc), (normalize_Z_fraction f Hf).
  reflexivity.
Qed.

Lemma local_not_empty (l z : string) :
  is_local l -> (l ++ z =? "")%string = false.
Proof.
  intros [d [sep [c [f [-> _]]]]]. destruct d; reflexivity.
Qed.

(** What the parser is handed for a timestamp that names its timezone is a
    local time followed by an explicit offset. *)
Lemma carries_offset_normalized (s : string) :
  carries_offset s ->
  (s =? "")%string = false
  /\ exists l o, is_local l /\ is_offset o = true /\ normalize_Z s = l ++ o.
Proof.
  intros [l [Hl [-> | [o [Ho ->]]]]];
    (split; [now apply local_not_empty|]).
  - exists l, "+00:00"%string. split; [exact Hl|]. split; [reflexivity|].
    now rewrite normalize_Z_app, (normalize_Z_local l Hl).
  - exists l, o. split; [exact Hl|]. split; [exact Ho|].
    now rewrite normalize_Z_app, (normalize_Z_local l Hl),
      (normalize_Z_offset o Ho).
Qed.

Lemma known_setitem (k : string) (v : value) (d : dict) :
  known_field k = true ->
  forallb (fun kv => known_field (fst kv)) d = true ->
  forallb (fun kv => known_field (fst kv)) (setitem k v d) = true.
Proof.
  intros Hk. induction d as [|[k0 v0] d IH]; simpl.
  - intros _. now rewrite Hk.
  - intro H. apply andb_true_iff in H. destruct H as [H0 Hd].
    destruct (k0 =? k)%string; simpl; rewrite H0; simpl; auto.
Qed.

Lemma has_key_setitem (k k' : string) (v : value) (d : dict) :
  has_key k d = true -> has_key k (setitem k' v d) = true.
Proof.
  unfold has_key. rewrite lookup_setitem.
  now destruct (k' =? k)%string.
Qed.

Lemma accepted_setitem (k : string) (v : value) (d : dict) :
  known_field k = true -> accepted d = true ->
  accepted (setitem k v d) = true.
Proof.
  unfold accepted. intros Hk H.
  apply andb_true_iff in H. destruct H as [H1 H2].
  apply andb_true_iff. split; [now apply known_setitem|].
  apply forallb_forall. intros x Hx.
  apply has_key_setitem.
  now apply (proj1 (forallb_forall _ _) H2).
Qed.

Lemma File_init_accepted (d : dict) :
  accepted d = true ->
  exists f, File_init d = Return f
            /\ created_at f = get_default d "created_at" VNone
            /\ updated_at f = get_default d "updated_at" VNone.
Proof.
  unfold accepted, File_init. intro H.
  apply andb_true_iff in H. destruct H as [H1 H2].
  rewrite H1, H2. simpl. eexists. repeat split.
Qed.

Lemma convert_timestamp_spec (parser : string -> option datetime)
    (key : string) (d0 d : dict) :
  known_field key = true -> accepted d = true ->
  lookup key d = lookup key d0 ->
  if rejected parser d0 key
  then convert_timestamp parser key (get d0 key) d
       = Raise (Foreign builtin_ValueError "Invalid isoformat string")
  else exists d',
         convert_timestamp parser key (get d0 key) d = Return d'
         /\ accepted d' = true
         /\ (forall k, (key =? k)%string = false -> lookup k d' = lookup k d)
         /\ timestamp_field parser (lookup key d0) (get_default d' key VNone).
Proof.
  intros Hk Hacc Hlk.
  unfold rejected, get, convert_timestamp, timestamp_field.
  destruct (lookup key d0) as [v|] eqn:H0;
    [destruct v|];
    try (exists d; repeat split; trivial;
         unfold get_default; now rewrite Hlk).
  simpl truthy.
  destruct (s =? "")%string eqn:Es; simpl.
  - exists d. repeat split; trivial.
    unfold get_default. rewrite Hlk.
    apply String.eqb_eq in Es. now subst s.
  - destruct (parser (normalize_Z s)) as [t|] eqn:Ep; simpl; [|reflexivity].
    exists (setitem key (VDatetime t) d). repeat split.
    + now apply accepted_setitem.
    + intros k Hne. now rewrite lookup_setitem, Hne.
    + exists t. split; [reflexivity|].
      unfold get_default. now rewrite lookup_setitem, String.eqb_refl.
Qed.

Lemma timestamp_field_aware (parser : string -> option datetime)
    (given : option value) (field : value) :
  reads_offsets parser ->
  timestamp_field parser given field -> aware_field given field.
Proof.
  intros Haware H s -> Hs. simpl in H.
  destruct (carries_offset_normalized s Hs) as [E [l [o [Hl [Ho En]]]]].
  rewrite E in H. destruct H as [t [Hp ->]].
  exists t. split; [reflexivity|].
  rewrite En in Hp. exact (Haware l o t Hl Ho Hp).
Qed.

(** C6 (as amended): for a dict that supplies the required fields of File and
    no unknown key, and a parser that reads an explicit offset after a local
    time (a date, a T or a space, and a time of day) as the timezone,
    [from_dict] raises ValueError when created_at or updated_at is a
    non-empty string that the parser refuses; otherwise it returns a File in
    which each of the two fields is None when the key is absent, the datetime
    the parser returns for the string with Z replaced by +00:00 when the key
    holds a non-empty string (a timezone-aware one whenever the string is a
    local time followed by Z or by an explicit offset), and the empty string
    when the key holds the empty string. *)
Theorem from_dict_timestamps (parser : string -> option datetime) (d : dict) :
  accepted d = true ->
  reads_offsets parser ->
  if rejected parser d "created_at" || rejected parser d "updated_at"
  then from_dict parser (VDict d)
       = Raise (Foreign builtin_ValueError "Invalid isoformat string")
  else exists f,
         from_dict parser (VDict d) = Return f
         /\ timestamp_field parser (lookup "created_at" d) (created_at f)
         /\ timestamp_field parser (lookup "updated_at" d) (updated_at f)
         /\ aware_field (lookup "created_at" d) (created_at f)
         /\ aware_field (lookup "updated_at" d) (updated_at f).
Proof.
  intros Hacc Haware.
  pose proof (convert_timestamp_spec parser "created_at" d d
                eq_refl Hacc eq_refl) as H1.
  unfold from_dict.
  destruct (rejected parser d "created_at"); simpl orb.
  - now rewrite H1.
  - destruct H1 as [d1 [E1 [A1 [L1 T1]]]].
    pose proof (convert_timestamp_spec parser "updated_at" d d1
                  eq_refl A1 (L1 "updated_at" eq_refl)) as H2.
    rewrite E1. simpl bind.
    destruct (rejected parser d "updated_at").
    + now rewrite H2.
    + destruct H2 as [d2 [E2 [A2 [L2 T2]]]].
      destruct (File_init_accepted d2 A2) as [f [Ef [Fc Fu]]].
      rewrite E2. simpl bind. exists f.
      assert (Tc : timestamp_field parser (lookup "created_at" d) (created_at f)).
      { rewrite Fc. unfold get_default.
        rewrite (L2 "created_at" eq_refl). exact T1. }
      assert (Tu : timestamp_field parser (lookup "updated_at" d) (updated_at f)).
      { rewrite Fu. exact T2. }
      repeat split; trivial; eapply timestamp_field_aware; eassumption.
Qed.

Lemma sample_fromisoformat_aware : reads_offsets sample_fromisoformat.
Proof.
  intros l o t _ _. unfold sample_fromisoformat.
  destruct (l ++ o =? "2024-01-01T10:00:00+00:00")%string.
  - intro H. injection H as <-. discriminate.
  - discriminate.
Defined.

(** Timestamps that name their timezone, with Z and with an explicit
    offset. *)
Example carries_offset_samples :
  carries_offset "2024-01-01T10:00:00Z"
  /\ carries_offset "2024-01-01T10:00:00.250Z"
  /\ carries_offset "2024-01-01T10:00:00+05:30"
  /\ carries_offset "2024-01-01 10:00:00-08:00".
Proof.
  split; [|split; [|split]].
  - exists "2024-01-01T10:00:00"%string. split; [|now left].
    now exists "2024-01-01"%string, "T"%char, "10:00:00"%string, ""%string.
  - exists "2024-01-01T10:00:00.250"%string. split; [|now left].
    now exists "2024-01-01"%string, "T"%char, "10:00:00"%string, ".250"%string.
  - exists "2024-01-01T10:00:00"%string. split.
    + now exists "2024-01-01"%string, "T"%char, "10:00:00"%string, ""%string.
    + right. now exists "+05:30"%string.
  - exists "2024-01-01 10:00:00"%string. split.
    + now exists "2024-01-01"%string, " "%char, "10:00:00"%string, ""%string.
    + right. now exists "-08:00"%string.
Qed.

Lemma from_dict_timestamps_witness :
  let d := sample_payload (Some (VStr "2024-01-01T10:00:00Z")) None in
  accepted d = true
  /\ reads_offsets sample_fromisoformat
  /\ exists f,
       from_dict sample_fromisoformat (VDict d) = Return f
       /\ timestamp_field sample_fromisoformat (lookup "created_at" d) (created_at f)
       /\ timestamp_field sample_fromisoformat (lookup "updated_at" d) (updated_at f)
       /\ aware_field (lookup "created_at" d) (created_at f)
       /\ aware_field (lookup "updated_at" d) (updated_at f).
Proof.
  split; [reflexivity|]. split; [exact sample_fromisoformat_aware|].
  exact (from_dict_timestamps sample_fromisoformat
           (sample_payload (Some (VStr "2024-01-01T10:00:00Z")) None)
           eq_refl sample_fromisoformat_aware).
Defined.

(** Where [from_dict] departs from the rule as the specification words it.
    The empty string is a timestamp that no parser of ISO-8601 accepts, and
    [from_dict] returns a File that carries it: the field is neither a
    datetime nor None, and nothing is raised.  An ISO-8601 timestamp without
    an offset, which the parser reads as a naive datetime, gives a File whose
    field is that naive datetime, not a timezone-aware one: the code attaches
    no timezone of its own.  A date followed by Z gives a naive datetime too:
    the parser is handed the date followed by +00:00 and reads that as the
    midnight of the date.  And a dict that holds two ISO-8601 timestamps and
    nothing else gives no File: the constructor misses its required
    fields. *)
Lemma from_dict_departs :
  let d := sample_payload (Some (VStr "")) None in
  let d' := sample_payload (Some (VStr "2024-01-01T10:00:00")) None in
  let d'' := sample_payload (Some (VStr "2024-01-01Z")) None in
  (sample_fromisoformat (normalize_Z "") = None
   /\ ~ malformed_timestamp_raises sample_fromisoformat d
   /\ exists f,
        from_dict sample_fromisoformat (VDict d) = Return f
        /\ created_at f = VStr "")
  /\ (sample_fromisoformat_local (normalize_Z "2024-01-01T10:00:00")
      = Some sample_local_datetime
      /\ ~ parsed_timestamp_aware sample_fromisoformat_local d'
      /\ exists f,
           from_dict sample_fromisoformat_local (VDict d') = Return f
           /\ created_at f = VDatetime sample_local_datetime
           /\ dt_utcoffset sample_local_datetime = None)
  /\ (sample_fromisoformat_local (normalize_Z "2024-01-01Z")
      = Some sample_midnight
      /\ ~ parsed_timestamp_aware sample_fromisoformat_local d''
      /\ exists f,
           from_dict sample_fromisoformat_local (VDict d'') = Return f
           /\ created_at f = VDatetime sample_midnight
           /\ dt_utcoffset sample_midnight = None)
  /\ from_dict sample_fromisoformat
       (VDict [("created_at", VStr "2024-01-01T10:00:00Z");
               ("updated_at", VStr "2024-01-01T10:00:00Z")])
     = Raise (Foreign builtin_TypeError "missing required positional arguments").
Proof.
  split; [|split; [|split; [|reflexivity]]].
  - split; [reflexivity|]. split.
    + intro H.
      specialize (H "created_at" ""%string (or_introl eq_refl) eq_refl eq_refl).
      discriminate H.
    + eexists. split; reflexivity.
  - split; [reflexivity|]. split.
    + intro H.
      destruct (H "2024-01-01T10:00:00"%string _ eq_refl
                  ltac:(discriminate) eq_refl) as [t [Ht Hz]].
      simpl in Ht. injection Ht as <-. now apply Hz.
    + eexists. repeat split.
  - split; [reflexivity|]. split.
    + intro H.
      destruct (H "2024-01-01Z"%string _ eq_refl
                  ltac:(discriminate) eq_refl) as [t [Ht Hz]].
      simpl in Ht. injection Ht as <-. now apply Hz.
    + eexists. repeat split.
Qed.

Example empty_timestamp_kept :
  exists f,
    from_dict sample_fromisoformat (VDict (sample_payload (Some (VStr "")) None))
    = Return f
    /\ created_at f = VStr "" /\ updated_at f = VNone.
Proof. eexists. repeat split. Qed.

End ModelsSpec.

(* ================================================================= *)
(** ** client.py: the response classifier *)

Module ClassifierSpec.
Import Py Client.
Import ClassifierTerms.

(** Decide the comparisons on the status that stand in the goal. *)
Ltac settle_status :=
  repeat match goal with
         | |- context [(?a =? ?b)] => destruct (Z.eqb_spec a b); try lia
         | |- context [(?a <=? ?b)] => destruct (Z.leb_spec a b); try lia
         | |- context [(?a <? ?b)] => destruct (Z.ltb_spec a b); try lia
         end;
  simpl; try reflexivity.

Lemma extract_on_dict (d : dict) :
  extract_error_message (VDict d) = Return (preferred_message d).
Proof.
  unfold extract_error_message, preferred_message, method_get, get_default,
    get, or_. simpl.
  destruct (lookup "message" d) as [m|]; simpl.
  - destruct (truthy m); [reflexivity|].
    destruct (lookup "error" d) as [e|]; reflexivity.
  - destruct (lookup "error" d) as [e|]; reflexivity.
Qed.

(** Status 200 returns the parsed body, whatever it is. *)
Lemma handle_response_200 (response : Response) :
  status_code response = 200 ->
  _handle_response response = Return (parse_body response).
Proof.
  intro H. unfold _handle_response. now rewrite H.
Qed.

(** On a body that is a JSON object, or that does not parse, the classifier
    raises the error of the status, with the preferred message. *)
Lemma handle_response_on_object (response : Response) (d : dict) :
  parse_body response = VDict d ->
  let status := status_code response in
  let msg := preferred_message d in
  (status = 401 -> _handle_response response = Raise (AuthenticationError (Arg msg)))
  /\ (status = 403 -> _handle_response response = Raise (AuthorizationError (Arg msg)))
  /\ (status = 404 -> _handle_response response = Raise (NotFoundError (Arg msg)))
  /\ (status = 413 -> _handle_response response = Raise (FileTooLargeError (Arg msg)))
  /\ (status = 422 -> _handle_response response = Raise (ValidationError (Arg msg)))
  /\ (status = 429 -> _handle_response response = Raise (RateLimitError (Arg msg)))
  /\ (500 <= status < 600 ->
      _handle_response response
      = Raise (ServerError (server_message status msg) status (VDict d)))
  /\ (status <> 200 -> ~ In status typed_statuses -> ~ (500 <= status < 600) ->
      _handle_response response = Raise (DAMError (api_message status msg))).
Proof.
  intros Hd status msg. unfold _handle_response.
  rewrite Hd, extract_on_dict. fold status. fold msg. simpl bind.
  unfold typed_statuses. simpl In.
  repeat split; intros; settle_status.
Qed.

(** Every error the classifier raises on such a body is an SDK error. *)
Lemma handle_response_typed (response : Response) (d : dict) :
  parse_body response = VDict d ->
  status_code response <> 200 ->
  exists e, _handle_response response = Raise e /\ is_DAMError e = true.
Proof.
  intros Hd Hs. unfold _handle_response.
  rewrite Hd, extract_on_dict. simpl bind.
  assert ((status_code response =? 200) = false) as -> by lia.
  repeat match goal with
         | |- context [if ?b then _ else _] =>
             destruct b; [eexists; split; reflexivity|]
         end.
  eexists; split; reflexivity.
Qed.

(** At every status other than 200 such a body makes the classifier fail
    with [AttributeError]: a list has no [get]. *)
Lemma array_body_attribute_error (status : Z) :
  status <> 200 ->
  _handle_response (array_response status)
  = Raise (Foreign builtin_AttributeError "get").
Proof.
  intro H. unfold _handle_response. simpl.
  assert ((status =? 200) = false) as -> by lia.
  reflexivity.
Qed.

(** C1: on a response whose body is the JSON array [[]], the classifier
    returns the parsed body at status 200, but at status 404 it does not
    raise NotFoundError and at status 500 it does not raise ServerError:
    reading the message field of the parsed body raises AttributeError, which
    is no SDK error. *)
Theorem handle_response_array_body :
  _handle_response (array_response 200) = Return (VList [])
  /\ _handle_response (array_response 404)
     = Raise (Foreign builtin_AttributeError "get")
  /\ _handle_response (array_response 500)
     = Raise (Foreign builtin_AttributeError "get")
  /\ is_DAMError (Foreign builtin_AttributeError "get") = false.
Proof.
  repeat split.
Qed.

(** The text and the attributes of a ServerError. *)
Example server_error_example :
  exists a,
    _handle_response unavailable_response
    = Raise (ServerError a 503 (VDict [("error", VStr "down")]))
    /\ render a = Some "Server error 503: down".
Proof. eexists. split; reflexivity. Qed.

(** *** Extraction of the error message *)

(** A body whose message field is present and empty: the code passes it over
    and takes the error field. *)
Lemma empty_message_passed_over :
  let d := [("message", VStr ""); ("error", VStr "boom")] in
  message_if_present d = VStr ""
  /\ extract_error_message (VDict d) = Return (VStr "boom")
  /\ extract_error_message (VDict d) <> Return (message_if_present d).
Proof.
  repeat split. discriminate.
Qed.

(** C3 (as amended): on a body that is a JSON object, extraction does not
    fail and yields the first truthy one of the message field, the error
    field and the literal Unknown error; when the body does not parse, the
    classifier synthesizes the envelope with the raw text under message, or
    with Unknown error when the raw text is empty, and extraction yields that
    text. *)
Theorem extraction_prefers_truthy :
  (forall d,
      extract_error_message (VDict d) = Return (preferred_message d)
      /\ truthy (preferred_message d) = true)
  /\ (forall status text,
        let response := {| status_code := status; text := text; json := None |} in
        parse_body response = VDict [("message", VStr (envelope_text text))]
        /\ extract_error_message (parse_body response)
           = Return (VStr (envelope_text text))).
Proof.
  split.
  - intro d. split; [apply extract_on_dict|].
    unfold preferred_message.
    destruct (truthy (get d "message")) eqn:E1; [exact E1|].
    destruct (truthy (get d "error")) eqn:E2; [exact E2|reflexivity].
  - intros status text response.
    unfold parse_body, envelope_text, or_. simpl.
    destruct (text =? "")%string eqn:E; simpl.
    + split; reflexivity.
    + split; [reflexivity|].
      rewrite extract_on_dict. unfold preferred_message, get. simpl. now rewrite E.
Qed.

End ClassifierSpec.

(* ================================================================= *)
(** ** client.py: uploads *)

Module UploadSpec.
Import Py Utils Models Constants Client.
Import UploadTerms.

(** C5: when the file at a path is larger than the maximum of 100 MB
    (104857600 bytes), upload_file raises FileTooLargeError and leaves the
    state as it was: no request has been handed to the transport and no file
    has been opened. *)
Theorem upload_file_oversize (env : Env) (self : DAMClient) (path : string)
    (options : option UploadOptions) (st : State) (file_size : Z) :
  getsize env path = Some file_size ->
  MAX_FILE_SIZE < file_size ->
  MAX_FILE_SIZE = 104857600
  /\ upload_file env self (PathArg path) options st
     = (Raise (FileTooLargeError too_large_message), st)
  /\ sent (snd (upload_file env self (PathArg path) options st)) = sent st.
Proof.
  intros Hsize Hbig.
  assert (E : upload_file env self (PathArg path) options st
              = (Raise (FileTooLargeError too_large_message), st)).
  { unfold upload_file, bindM, lift, validate_file_size.
    rewrite Hsize.
    assert ((file_size <=? MAX_FILE_SIZE) = false) as -> by lia.
    reflexivity. }
  split; [reflexivity|]. split; [exact E|]. now rewrite E.
Qed.

Lemma upload_file_oversize_witness :
  getsize sample_env "b.bin" = Some (MAX_FILE_SIZE + 1)
  /\ MAX_FILE_SIZE < MAX_FILE_SIZE + 1
  /\ MAX_FILE_SIZE = 104857600
  /\ upload_file sample_env sample_client (PathArg "b.bin") None initial
     = (Raise (FileTooLargeError too_large_message), initial)
  /\ sent (snd (upload_file sample_env sample_client (PathArg "b.bin") None
                  initial)) = sent initial.
Proof.
  split; [reflexivity|]. split; [reflexivity|].
  apply (upload_file_oversize sample_env sample_client "b.bin" None initial
           (MAX_FILE_SIZE + 1)); reflexivity.
Defined.

(** How [_request] maps the failures of the transport: a timeout (also a
    connect timeout, which is a connection error too) to TimeoutError, a
    connection error to NetworkError, any other exception of requests to
    DAMError. *)
Example request_maps_transport_failures :
  fst (_request (failing_env (Foreign requests_ConnectTimeout "timed out"))
         sample_client "GET" "/api/public/files" [] [] initial)
  = Raise (TimeoutError
             (FString [Lit "Request timed out after "; Subst (VInt 30);
                       Lit " seconds"]))
  /\ fst (_request (failing_env (Foreign requests_ConnectionError "refused"))
            sample_client "GET" "/api/public/files" [] [] initial)
     = Raise (NetworkError (Arg (VStr "Network connection failed")))
  /\ fst (_request (failing_env (Foreign requests_RequestException "bad url"))
            sample_client "GET" "/api/public/files" [] [] initial)
     = Raise (DAMError (FString [Lit "Request failed: "; Subst (VStr "bad url")])).
Proof. repeat split. Qed.

(** *** File handles of [upload_multiple_files] *)

(** C4: with a first file that passes the size check and a second one that
    is too large, upload_multiple_files opens the first file, raises
    FileTooLargeError for the second while it is still filling the list of
    files, and returns without having closed the first: the loop that opens
    the files runs before the try statement whose finally clause closes them.
    The same happens when the second file cannot be sized or opened. *)
Theorem upload_multiple_files_leaks_on_assembly_error :
  let (outcome, st) :=
    upload_multiple_files sample_env sample_client
      [PathArg "a.bin"; PathArg "b.bin"] None initial in
  outcome = Raise (FileTooLargeError
                     (FString [Lit "File "; Subst (VStr "b.bin");
                               Lit " exceeds maximum size"]))
  /\ opened st = ["a.bin"]
  /\ close_count (Opened 0) (closed st) = 0%nat
  /\ sent st = [].
Proof.
  vm_compute. repeat split.
Qed.

Example upload_multiple_files_leaks_on_missing_file :
  let (outcome, st) :=
    upload_multiple_files sample_env sample_client
      [PathArg "a.bin"; PathArg "missing.bin"] None initial in
  outcome = Raise (Foreign builtin_OSError "missing.bin")
  /\ opened st = ["a.bin"]
  /\ close_count (Opened 0) (closed st) = 0%nat.
Proof.
  vm_compute. repeat split.
Qed.

(** Where the list of files is filled without an error, the guarantee holds:
    whatever the request does, each opened file is closed once. *)





(** A small file and a stream of the caller: both are closed once, after
    the request. *)
Example upload_multiple_files_success_path :
  let (outcome, st) :=
    upload_multiple_files sample_env sample_client
      [PathArg "a.bin"; ObjArg 7] None initial in
  raises outcome = false
  /\ opened st = ["a.bin"]
  /\ closed st = [Opened 0; Given 7]
  /\ List.length (sent st) = 1%nat.
Proof.
  vm_compute. repeat split.
Qed.

End UploadSpec.

(* ================================================================= *)
(** ** async_client.py: the error path of [_request] *)

Module AsyncSpec.
Import Py Client AsyncClient.
Import AsyncTerms.

(** At a status other than 200 the classifier never returns. *)
Lemma handle_response_raises (response : Response) :
  status_code response <> 200 ->
  exists e, _handle_response response = Raise e.
Proof.
  intro H. unfold _handle_response.
  assert ((status_code response =? 200) = false) as -> by lia.
  destruct (extract_error_message (parse_body response)) as [msg|e];
    simpl bind; [|now exists e].
  repeat match goal with
         | |- context [if ?b then _ else _] =>
             destruct b; [eexists; reflexivity|]
         end.
  eexists; reflexivity.
Qed.

(** The block under [if response.status != 200:] raises what the classifier
    of the blocking client raises on the mock response. *)
Lemma error_block_delegates (json_loads : string -> option value)
    (response : AioResponse) :
  error_block json_loads response
  = _handle_response
      (MockResponse json_loads (status response) (body_text response)).
Proof. reflexivity. Qed.

(** The exception then meets the clause [except aiohttp.ClientTimeout],
    and what leaves [_request] is a [TypeError], at every status other than
    200 and for every body. *)
Lemma async_request_error_path (json_loads : string -> option value)
    (self : AsyncDAMClient) (response : AioResponse) :
  status response <> 200 ->
  AsyncClient._request json_loads self (Return response) = Raise cannot_catch.
Proof.
  intro H. unfold AsyncClient._request. simpl bind.
  assert ((status response =? 200) = false) as -> by lia. simpl negb.
  rewrite error_block_delegates.
  destruct (handle_response_raises
              (MockResponse json_loads (status response) (body_text response)) H)
    as [e ->].
  reflexivity.
Qed.

(** The success path is not affected: no exception reaches the clauses. *)
Lemma async_request_success (json_loads : string -> option value)
    (self : AsyncDAMClient) (text : string) (data : value) :
  AsyncClient._request json_loads self
    (Return {| status := 200; body_text := text; body_json := Return data |})
  = Return data.
Proof. reflexivity. Qed.

(** C2: on a 404 response with body Not Found, the classifier of the
    blocking client raises NotFoundError with that message, and so does the
    block of the cooperative client that delegates to it; but [_request] of
    the cooperative client lets the error meet [except aiohttp.ClientTimeout],
    which names the timeout settings class, and the caller receives a
    TypeError instead of the NotFoundError. *)
Theorem async_error_path_diverges :
  _handle_response (MockResponse sample_json_loads 404 "Not Found")
  = Raise (NotFoundError (Arg (VStr "Not Found")))
  /\ error_block sample_json_loads not_found_response
     = Raise (NotFoundError (Arg (VStr "Not Found")))
  /\ AsyncClient._request sample_json_loads sample_async_client
       (Return not_found_response)
     = Raise cannot_catch
  /\ is_DAMError cannot_catch = false.
Proof.
  repeat split.
Qed.

End AsyncSpec.

(* ================================================================= *)
(** ** utils.py: [chunked_upload], [format_bytes], [is_supported_format] *)

Module UtilsRestSpec.
Import Py Utils UtilsRest UtilsRestTerms.

Lemma read_served (limit : N) (n : Z) (rest : list Byte.byte) :
  served limit n ->
  read limit n rest
  = inr (if n =? -1 then rest else firstn (Z.to_nat n) rest).
Proof.
  unfold read, max_bytes. intros [-> | [[H0 Hl] Hm]]; [reflexivity|].
  unfold max_bytes in Hm.
  destruct (Z.eqb_spec n (-1)); [lia|].
  destruct (Z.ltb_spec n (- 2 ^ 63)); [lia|].
  destruct (Z.ltb_spec n 0); [lia|].
  destruct (Z.ltb_spec (2 ^ 63 - 34) n); [lia|].
  destruct (Z.ltb_spec (Z.of_N limit) n); [lia|]. reflexivity.
Qed.

Lemma take_prefix (n : Z) (rest chunk : list Byte.byte) :
  (if n =? -1 then rest else firstn (Z.to_nat n) rest) = chunk ->
  (chunk ++ skipn (List.length chunk) rest)%list = rest.
Proof.
  intros <-. destruct (n =? -1).
  - now rewrite skipn_all, app_nil_r.
  - generalize (Z.to_nat n). clear n. intro n. revert n.
    induction rest as [|b rest IH]; intros [|n]; simpl; trivial.
    now rewrite IH.
Qed.

Lemma take_nothing (n : Z) (rest : list Byte.byte) :
  n <> 0 ->
  (if n =? -1 then rest else firstn (Z.to_nat n) rest) = [] ->
  0 <= n \/ n = -1 -> rest = [].
Proof.
  intros Hn E Hs. destruct (Z.eqb_spec n (-1)); [exact E|].
  destruct (Z.to_nat n) eqn:En; [lia|].
  now destruct rest.
Qed.

Lemma take_length (n : Z) (rest : list Byte.byte) :
  0 < n ->
  List.length (if n =? -1 then rest else firstn (Z.to_nat n) rest)
  = Nat.min (Z.to_nat n) (List.length rest).
Proof.
  intro H. destruct (Z.eqb_spec n (-1)); [lia|]. apply length_firstn.
Qed.

Lemma served_sign (limit : N) (n : Z) : served limit n -> 0 <= n \/ n = -1.
Proof. intros [-> | [[H _] _]]; lia. Qed.

Lemma chunks_concat (limit : N) (chunk_size : Z) (fuel : nat) :
  served limit chunk_size -> chunk_size <> 0 ->
  forall rest, (List.length rest < fuel)%nat ->
               raised (chunks limit fuel chunk_size rest) = None
               /\ List.concat (yielded (chunks limit fuel chunk_size rest))
                  = rest.
Proof.
  intros Hs Hn. induction fuel as [|fuel IH]; intros rest Hlt; [lia|].
  cbn [chunks]. rewrite (read_served limit chunk_size rest Hs).
  destruct (if chunk_size =? -1 then rest
            else firstn (Z.to_nat chunk_size) rest) as [|b chunk] eqn:E.
  - split; [reflexivity|]. symmetry.
    exact (take_nothing chunk_size rest Hn E (served_sign _ _ Hs)).
  - pose proof (take_prefix chunk_size rest _ E) as Hp.
    assert (Hlen : (List.length (skipn (List.length (b :: chunk)) rest)
                    < fuel)%nat).
    { rewrite length_skipn. cbn [List.length].
      assert (0 < List.length rest)%nat.
      { rewrite <- Hp. cbn [List.length app]. lia. }
      lia. }
    destruct (IH _ Hlen) as [Hr Hc].
    cbn [yielded raised List.concat]. split; [exact Hr|].
    rewrite Hc. exact Hp.
Qed.


Lemma piece_lengths_step (n len : nat) :
  (0 < n <= len)%nat -> piece_lengths n len = n :: piece_lengths n (len - n).
Proof.
  intro H.
  assert (Hd : (len / n = S ((len - n) / n))%nat).
  { replace len with ((len - n) + 1 * n)%nat at 1 by lia.
    rewrite Nat.div_add by lia. lia. }
  assert (Hm : (len mod n = (len - n) mod n)%nat).
  { replace len with ((len - n) + 1 * n)%nat at 1 by lia.
    apply Nat.Div0.mod_add. }
  unfold piece_lengths. rewrite Hd, Hm. reflexivity.
Qed.

Lemma piece_lengths_short (n len : nat) :
  (0 < len < n)%nat -> piece_lengths n len = [len].
Proof.
  intro H. unfold piece_lengths.
  rewrite Nat.div_small, Nat.mod_small by lia.
  destruct (Nat.eqb_spec len 0); [lia|reflexivity].
Qed.

Lemma chunks_lengths (limit : N) (chunk_size : Z) (fuel : nat) :
  served limit chunk_size -> 0 < chunk_size ->
  forall rest, (List.length rest < fuel)%nat ->
               map (@List.length Byte.byte)
                   (yielded (chunks limit fuel chunk_size rest))
               = piece_lengths (Z.to_nat chunk_size) (List.length rest).
Proof.
  intros Hs Hn. induction fuel as [|fuel IH]; intros rest Hlt; [lia|].
  cbn [chunks]. rewrite (read_served limit chunk_size rest Hs).
  pose proof (take_length chunk_size rest Hn) as Hlen.
  destruct (if chunk_size =? -1 then rest
            else firstn (Z.to_nat chunk_size) rest) as [|b chunk] eqn:E.
  - assert (rest = [])
      by (apply (take_nothing chunk_size); [lia | exact E | lia]).
    subst rest. unfold piece_lengths. simpl.
    rewrite Nat.Div0.div_0_l, Nat.Div0.mod_0_l. reflexivity.
  - pose proof (take_prefix chunk_size rest _ E) as Hp.
    assert (0 < List.length rest)%nat
      by (rewrite <- Hp; cbn [List.length app]; lia).
    cbn [yielded map].
    rewrite IH by (rewrite length_skipn; cbn [List.length]; lia).
    rewrite length_skipn, Hlen.
    destruct (Nat.le_gt_cases (Z.to_nat chunk_size) (List.length rest)).
    + rewrite Nat.min_l by lia.
      rewrite (piece_lengths_step _ (List.length rest)) by lia. reflexivity.
    + rewrite Nat.min_r by lia.
      rewrite (piece_lengths_short _ (List.length rest)) by lia.
      rewrite Nat.sub_diag. unfold piece_lengths.
      rewrite Nat.Div0.div_0_l, Nat.Div0.mod_0_l. reflexivity.
Qed.




(** X2: for a chunk size n from 1 up to what the machine has memory for (and
    to the longest byte string) and a file of len bytes, chunked_upload runs
    to its end without an exception and yields len/n chunks of n bytes,
    followed by one chunk of the remaining len mod n bytes when that is not
    zero. *)
Theorem chunked_upload_sizes (read_file : string -> option (list Byte.byte))
    (limit : N) (file_path : string) (chunk_size : Z)
    (content : list Byte.byte) :
  read_file file_path = Some content ->
  0 < chunk_size <= Z.of_N limit ->
  chunk_size <= max_bytes ->
  exists pieces,
    chunked_upload read_file limit file_path chunk_size
    = {| yielded := pieces; raised := None |}
    /\ map (@List.length Byte.byte) pieces
       = piece_lengths (Z.to_nat chunk_size) (List.length content).
Proof.
  intros Hf Hn Hm. unfold chunked_upload. rewrite Hf.
  assert (Hs : served limit chunk_size) by (unfold served; lia).
  assert (Hz : chunk_size <> 0) by lia.
  destruct (chunks_concat limit chunk_size (S (List.length content)) Hs Hz
              content (Nat.lt_succ_diag_r _)) as [Hr _].
  pose proof (chunks_lengths limit chunk_size (S (List.length content)) Hs
                (proj1 Hn) content (Nat.lt_succ_diag_r _)) as Hl.
  destruct (chunks limit (S (List.length content)) chunk_size content)
    as [pieces r].
  cbn [yielded raised] in *. subst r.
  exists pieces. split; [reflexivity | exact Hl].
Qed.

Lemma chunked_upload_sizes_witness :
  one_file "data.bin" = Some ten_bytes
  /\ 0 < 4 <= Z.of_N sample_limit
  /\ 4 <= max_bytes
  /\ exists pieces,
      chunked_upload one_file sample_limit "data.bin" 4
      = {| yielded := pieces; raised := None |}
      /\ map (@List.length Byte.byte) pieces
         = piece_lengths (Z.to_nat 4) (List.length ten_bytes).
Proof.
  assert (H : 0 < 4 <= Z.of_N sample_limit) by (split; [reflexivity | discriminate]).
  assert (Hm : 4 <= max_bytes) by discriminate.
  split; [reflexivity|]. split; [exact H|]. split; [exact Hm|].
  exact (chunked_upload_sizes one_file sample_limit "data.bin" 4 ten_bytes
           eq_refl H Hm).
Defined.



Lemma append_assoc (a b c : string) : ((a ++ b) ++ c = a ++ (b ++ c))%string.
Proof.
  induction a as [|x a IH]; [reflexivity|]. simpl. now rewrite IH.
Qed.

Lemma format_bytes_closed_form (size : Z) :
  format_bytes size
  = fixed2 size (1024 ^ unit_index size) ++ " " ++ unit_name (unit_index size).
Proof.
  unfold format_bytes, unit_index. cbn [format_units].
  change (1024 * 1) with 1024.
  change (1024 * 1024) with (1024 ^ 2).
  change (1024 * 1024 ^ 2) with (1024 ^ 3).
  change (1024 * 1024 ^ 3) with (1024 ^ 4).
  change (1024 * 1024 ^ 4) with (1024 ^ 5).
  destruct (size <? 1024); [reflexivity|].
  destruct (size <? 1024 ^ 2); [reflexivity|].
  destruct (size <? 1024 ^ 3); [reflexivity|].
  destruct (size <? 1024 ^ 4); [reflexivity|].
  destruct (size <? 1024 ^ 5); reflexivity.
Qed.

Lemma round_half_even_whole (n : Z) : round_half_even n 1 = n.
Proof.
  unfold round_half_even. now rewrite Z.div_1_r, Z.mod_1_r.
Qed.

Lemma fixed2_whole (size : Z) :
  0 <= size -> fixed2 size 1 = str_int size ++ ".00".
Proof.
  intro H. unfold fixed2. rewrite round_half_even_whole.
  assert ((100 * size <? 0) = false) as -> by lia.
  rewrite Z.abs_eq by lia.
  rewrite (Z.mul_comm 100 size), Z.div_mul, Z.mod_mul by lia.
  reflexivity.
Qed.

Lemma round_up_to_1024 (size d : Z) :
  0 < d ->
  200 * (1024 * d) - d <= 200 * size < 200 * (1024 * d) ->
  round_half_even (100 * size) d = 102400.
Proof.
  intros Hd H. unfold round_half_even.
  assert (Hq : 100 * size / d = 102399).
  { symmetry. apply (Z.div_unique _ _ _ (100 * size - d * 102399)); lia. }
  assert (Hr : 100 * size mod d = 100 * size - d * 102399).
  { symmetry. apply (Z.mod_unique _ _ 102399); lia. }
  rewrite Hq, Hr.
  destruct (Z.ltb_spec (2 * (100 * size - d * 102399)) d); [lia|].
  destruct (Z.ltb_spec d (2 * (100 * size - d * 102399))); reflexivity.
Qed.

(** X4: format_bytes picks the unit by the size before rounding: B below
    1024, KB below 1024^2, MB below 1024^3, GB below 1024^4, TB below 1024^5
    and PB from there on, and prints the size divided by the matching power
    of 1024 with two decimals; a size from 0 to 1023 is printed as the whole
    number with .00 and the unit B.  (Sizes from 0 to 2^53, where the float
    of the source holds the size exactly.) *)
Theorem format_bytes_unit (size : Z) :
  0 <= size < 2 ^ 53 ->
  format_bytes size
  = fixed2 size (1024 ^ unit_index size) ++ " " ++ unit_name (unit_index size)
  /\ (1024 ^ unit_index size <= size \/ size < 1024)
  /\ (size < 1024 * 1024 ^ unit_index size \/ unit_index size = 5)
  /\ (size < 1024 -> format_bytes size = str_int size ++ ".00 B").
Proof.
  intro H. split; [apply format_bytes_closed_form|].
  assert (Hcases :
            (size < 1024 /\ unit_index size = 0)
            \/ (1024 <= size < 1024 ^ 2 /\ unit_index size = 1)
            \/ (1024 ^ 2 <= size < 1024 ^ 3 /\ unit_index size = 2)
            \/ (1024 ^ 3 <= size < 1024 ^ 4 /\ unit_index size = 3)
            \/ (1024 ^ 4 <= size < 1024 ^ 5 /\ unit_index size = 4)
            \/ (1024 ^ 5 <= size /\ unit_index size = 5)).
  { unfold unit_index.
    destruct (Z.ltb_spec size 1024); [lia|].
    destruct (Z.ltb_spec size (1024 ^ 2)); [lia|].
    destruct (Z.ltb_spec size (1024 ^ 3)); [lia|].
    destruct (Z.ltb_spec size (1024 ^ 4)); [lia|].
    destruct (Z.ltb_spec size (1024 ^ 5)); lia. }
  split; [|split].
  - destruct Hcases as [ [? ->] | [ [? ->] | [ [? ->] | [ [? ->] | [ [? ->] | [? ->] ] ] ] ] ]; lia.
  - destruct Hcases as [ [? ->] | [ [? ->] | [ [? ->] | [ [? ->] | [ [? ->] | [? ->] ] ] ] ] ]; lia.
  - intro Hs. rewrite format_bytes_closed_form.
    unfold unit_index. assert ((size <? 1024) = true) as -> by lia.
    change (1024 ^ 0) with 1. rewrite fixed2_whole by lia.
    unfold unit_name. simpl. now rewrite append_assoc.
Qed.

Lemma format_bytes_unit_witness :
  0 <= 1536 < 2 ^ 53
  /\ format_bytes 1536
     = fixed2 1536 (1024 ^ unit_index 1536) ++ " " ++ unit_name (unit_index 1536)
  /\ (1024 ^ unit_index 1536 <= 1536 \/ 1536 < 1024)
  /\ (1536 < 1024 * 1024 ^ unit_index 1536 \/ unit_index 1536 = 5)
  /\ (1536 < 1024 -> format_bytes 1536 = str_int 1536 ++ ".00 B").
Proof.
  assert (H : 0 <= 1536 < 2 ^ 53) by (split; [discriminate|reflexivity]).
  split; [exact H|].
  exact (format_bytes_unit 1536 H).
Defined.

(** X5: rounding comes after the choice of the unit, so a size less than
    half a hundredth of a unit below the next unit is printed as 1024.00 of
    the smaller unit: for KB, MB, GB and TB (k from 1 to 4), every size with
    1024^(k+1) - 1024^k/200 <= size < 1024^(k+1) gives 1024.00 and the unit
    of k. *)
Theorem format_bytes_rounds_to_1024 (k size : Z) :
  1 <= k <= 4 ->
  200 * (1024 * 1024 ^ k) - 1024 ^ k <= 200 * size < 200 * (1024 * 1024 ^ k) ->
  format_bytes size = "1024.00 " ++ unit_name k.
Proof.
  intros Hk H.
  assert (Hpow : 0 < 1024 ^ k) by (apply Z.pow_pos_nonneg; lia).
  assert (Hidx : unit_index size = k).
  { unfold unit_index.
    assert (k = 1 \/ k = 2 \/ k = 3 \/ k = 4) as [ -> | [ -> | [ -> | -> ] ] ] by lia;
      (destruct (Z.ltb_spec size 1024); [lia|]);
      (destruct (Z.ltb_spec size (1024 ^ 2)); [lia|]);
      (destruct (Z.ltb_spec size (1024 ^ 3)); [lia|]);
      (destruct (Z.ltb_spec size (1024 ^ 4)); [lia|]);
      (destruct (Z.ltb_spec size (1024 ^ 5)); lia). }
  rewrite format_bytes_closed_form, Hidx.
  unfold fixed2. rewrite (round_up_to_1024 size (1024 ^ k) Hpow H).
  reflexivity.
Qed.

Lemma format_bytes_rounds_to_1024_witness :
  1 <= 1 <= 4
  /\ 200 * (1024 * 1024 ^ 1) - 1024 ^ 1 <= 200 * 1048575
     < 200 * (1024 * 1024 ^ 1)
  /\ format_bytes 1048575 = "1024.00 " ++ unit_name 1.
Proof.
  assert (H1 : 1 <= 1 <= 4) by (split; discriminate).
  assert (H2 : 200 * (1024 * 1024 ^ 1) - 1024 ^ 1 <= 200 * 1048575
               < 200 * (1024 * 1024 ^ 1)) by (split; [discriminate|reflexivity]).
  split; [exact H1|]. split; [exact H2|].
  exact (format_bytes_rounds_to_1024 1 1048575 H1 H2).
Defined.

Lemma lower_upper_char (c : ascii) : lower_char (upper_char c) = lower_char c.
Proof.
  destruct c as [[] [] [] [] [] [] [] []]; reflexivity.
Qed.

Lemma lower_lower_char (c : ascii) : lower_char (lower_char c) = lower_char c.
Proof.
  destruct c as [[] [] [] [] [] [] [] []]; reflexivity.
Qed.

Lemma lower_upper (s : string) : lower (upper s) = lower s.
Proof.
  induction s as [|c s IH]; [reflexivity|].
  simpl. now rewrite lower_upper_char, IH.
Qed.

Lemma lower_lower (s : string) : lower (lower s) = lower s.
Proof.
  induction s as [|c s IH]; [reflexivity|].
  simpl. now rewrite lower_lower_char, IH.
Qed.

(** X6: is_supported_format does not depend on the case of ASCII letters:
    a name, its upper-case form and its lower-case form get the same
    answer, which is yes exactly when the lower-case form is one of jpeg,
    jpg, png, webp, avif, gif. *)
Theorem is_supported_format_ignores_case (format_str : string) :
  is_supported_format (upper format_str) = is_supported_format format_str
  /\ is_supported_format (lower format_str) = is_supported_format format_str
  /\ (is_supported_format format_str = true
      <-> In (lower format_str) ["jpeg"; "jpg"; "png"; "webp"; "avif"; "gif"]).
Proof.
  unfold is_supported_format. rewrite lower_upper, lower_lower.
  split; [reflexivity|]. split; [reflexivity|].
  rewrite existsb_exists. unfold SUPPORTED_FORMATS. split.
  - intros [x [Hin Heq]]. apply String.eqb_eq in Heq. now subst x.
  - intro Hin. exists (lower format_str). split; [exact Hin|].
    apply String.eqb_refl.
Qed.

End UtilsRestSpec.

(* ================================================================= *)
(** ** models.py: the constructors behind [from_dict] *)

Module ModelsRestSpec.
Import Py Models ModelsTerms ModelsRestTerms.

Lemma keys_setitem_present {A : Type} (k : string) (v v0 : A)
    (d : list (string * A)) :
  lookup k d = Some v0 -> map fst (setitem k v d) = map fst d.
Proof.
  induction d as [|[k' v'] d IH]; simpl; [discriminate|].
  destruct (k' =? k)%string; [reflexivity|].
  intro H. simpl. now rewrite IH.
Qed.

Lemma forallb_keys {A : Type} (f : string -> bool) (d : list (string * A)) :
  forallb (fun kv => f (fst kv)) d = forallb f (map fst d).
Proof.
  induction d as [|kv d IH]; [reflexivity|]. simpl. now rewrite IH.
Qed.

Lemma has_key_keys {A : Type} (k : string) (d : list (string * A)) :
  has_key k d = existsb (fun k' => (k' =? k)%string) (map fst d).
Proof.
  unfold has_key. induction d as [|[k' v'] d IH]; [reflexivity|].
  simpl. destruct (k' =? k)%string; [reflexivity|exact IH].
Qed.

Lemma forallb_pointwise {A : Type} (f g : A -> bool) (l : list A) :
  (forall a, f a = g a) -> forallb f l = forallb g l.
Proof.
  intro H. induction l as [|a l IH]; [reflexivity|].
  simpl. now rewrite H, IH.
Qed.

(** Acceptance by a dataclass constructor depends on the keys only. *)
Lemma accepted_keys (d d' : dict) :
  map fst d' = map fst d ->
  accepted d' = accepted d /\ folder_accepted d' = folder_accepted d.
Proof.
  intro H. unfold accepted, folder_accepted.
  rewrite !forallb_keys, H.
  split; f_equal; apply forallb_pointwise; intro k;
    now rewrite !has_key_keys, H.
Qed.

(** One conversion step: it fails exactly on a rejected timestamp, and
    otherwise keeps the keys and every other entry. *)
Lemma convert_timestamp_result (parser : string -> option datetime)
    (key : string) (d0 d : dict) :
  lookup key d = lookup key d0 ->
  if rejected parser d0 key
  then convert_timestamp parser key (get d0 key) d
       = Raise (Foreign builtin_ValueError "Invalid isoformat string")
  else exists d',
         convert_timestamp parser key (get d0 key) d = Return d'
         /\ map fst d' = map fst d
         /\ (forall k, (key =? k)%string = false -> lookup k d' = lookup k d)
         /\ timestamp_field parser (lookup key d0) (get_default d' key VNone).
Proof.
  intros Hlk.
  unfold rejected, get, convert_timestamp, timestamp_field.
  destruct (lookup key d0) as [v|] eqn:H0;
    [destruct v|];
    try (exists d; repeat split; trivial;
         unfold get_default; now rewrite Hlk).
  simpl truthy.
  destruct (s =? "")%string eqn:Es; simpl.
  - exists d. repeat split; trivial.
    unfold get_default. rewrite Hlk.
    apply String.eqb_eq in Es. now subst s.
  - destruct (parser (normalize_Z s)) as [t|] eqn:Ep; simpl; [|reflexivity].
    exists (setitem key (VDatetime t) d). repeat split.
    + now apply (keys_setitem_present key _ (VStr s)).
    + intros k Hne. now rewrite ModelsSpec.lookup_setitem, Hne.
    + exists t. split; [reflexivity|].
      unfold get_default. now rewrite ModelsSpec.lookup_setitem, String.eqb_refl.
Qed.

Lemma File_init_refused (d : dict) :
  accepted d = false ->
  exists msg, File_init d = Raise (Foreign builtin_TypeError msg).
Proof.
  unfold accepted, File_init. intro H.
  destruct (forallb (fun kv => known_field (fst kv)) d); simpl in *.
  - rewrite H. simpl. eexists; reflexivity.
  - eexists; reflexivity.
Qed.

(** X7: a dict with a key that File does not declare, or without one of its
    required fields, makes File.from_dict raise: TypeError from the
    constructor, or ValueError when a timestamp is a non-empty string that
    the parser refuses, since the timestamps are converted first.  No File
    is returned for such a payload. *)
Theorem from_dict_refuses_unexpected_payload
    (parser : string -> option datetime) (d : dict) :
  accepted d = false ->
  exists msg,
    from_dict parser (VDict d)
    = Raise (if rejected parser d "created_at" || rejected parser d "updated_at"
             then Foreign builtin_ValueError "Invalid isoformat string"
             else Foreign builtin_TypeError msg).
Proof.
  intro Hacc. unfold from_dict.
  pose proof (convert_timestamp_result parser "created_at" d d eq_refl) as H1.
  destruct (rejected parser d "created_at"); simpl orb.
  - exists ""%string. now rewrite H1.
  - destruct H1 as [d1 [E1 [K1 [L1 _]]]].
    pose proof (convert_timestamp_result parser "updated_at" d d1
                  (L1 "updated_at" eq_refl)) as H2.
    rewrite E1. simpl bind.
    destruct (rejected parser d "updated_at").
    + exists ""%string. now rewrite H2.
    + destruct H2 as [d2 [E2 [K2 _]]].
      rewrite E2. simpl bind.
      apply File_init_refused.
      rewrite (proj1 (accepted_keys d1 d2 K2)).
      now rewrite (proj1 (accepted_keys d d1 K1)).
Qed.

Lemma from_dict_refuses_unexpected_payload_witness :
  accepted payload_with_extra_field = false
  /\ exists msg,
      from_dict sample_fromisoformat (VDict payload_with_extra_field)
      = Raise (if rejected sample_fromisoformat payload_with_extra_field "created_at"
                  || rejected sample_fromisoformat payload_with_extra_field "updated_at"
               then Foreign builtin_ValueError "Invalid isoformat string"
               else Foreign builtin_TypeError msg).
Proof.
  split; [reflexivity|].
  apply (from_dict_refuses_unexpected_payload sample_fromisoformat
           payload_with_extra_field).
  reflexivity.
Defined.

Lemma Folder_init_cases (d : dict) :
  if folder_accepted d
  then exists f, ModelsRest.Folder_init d = Return f
                 /\ ModelsRest.created_at f = get_default d "created_at" VNone
                 /\ ModelsRest.updated_at f = get_default d "updated_at" VNone
  else exists msg,
         ModelsRest.Folder_init d = Raise (Foreign builtin_TypeError msg).
Proof.
  unfold folder_accepted, ModelsRest.Folder_init.
  destruct (forallb (fun kv => ModelsRest.known_field (fst kv)) d);
    cbn [andb negb].
  - destruct (forallb (fun k => has_key k d) ModelsRest.required_fields);
      cbn [andb negb].
    + eexists. repeat split.
    + eexists; reflexivity.
  - eexists; reflexivity.
Qed.

(** X8: Folder.from_dict raises ValueError when created_at or updated_at is
    a non-empty string that the parser refuses; otherwise it raises
    TypeError when the dict has a key that Folder does not declare or lacks
    a required field; otherwise it returns a Folder in which each of the two
    timestamps is None when the key is absent, the parsed datetime when the
    key holds a non-empty string, and the value itself in every other
    case. *)
Theorem Folder_from_dict_cases (parser : string -> option datetime) (d : dict) :
  if rejected parser d "created_at" || rejected parser d "updated_at"
  then ModelsRest.from_dict parser (VDict d)
       = Raise (Foreign builtin_ValueError "Invalid isoformat string")
  else if folder_accepted d
  then exists f,
         ModelsRest.from_dict parser (VDict d) = Return f
         /\ timestamp_field parser (lookup "created_at" d)
                            (ModelsRest.created_at f)
         /\ timestamp_field parser (lookup "updated_at" d)
                            (ModelsRest.updated_at f)
  else exists msg,
         ModelsRest.from_dict parser (VDict d)
         = Raise (Foreign builtin_TypeError msg).
Proof.
  unfold ModelsRest.from_dict.
  pose proof (convert_timestamp_result parser "created_at" d d eq_refl) as H1.
  destruct (rejected parser d "created_at"); simpl orb.
  - now rewrite H1.
  - destruct H1 as [d1 [E1 [K1 [L1 T1]]]].
    pose proof (convert_timestamp_result parser "updated_at" d d1
                  (L1 "updated_at" eq_refl)) as H2.
    rewrite E1. simpl bind.
    destruct (rejected parser d "updated_at").
    + now rewrite H2.
    + destruct H2 as [d2 [E2 [K2 [L2 T2]]]].
      rewrite E2. simpl bind.
      pose proof (Folder_init_cases d2) as Hinit.
      rewrite (proj2 (accepted_keys d1 d2 K2)) in Hinit.
      rewrite (proj2 (accepted_keys d d1 K1)) in Hinit.
      destruct (folder_accepted d); [|exact Hinit].
      destruct Hinit as [f [Ef [Fc Fu]]]. exists f.
      split; [exact Ef|]. split.
      * rewrite Fc. unfold get_default.
        rewrite (L2 "created_at" eq_refl). exact T1.
      * rewrite Fu. exact T2.
Qed.

End ModelsRestSpec.

(* ================================================================= *)
(** ** client.py: requests, uploads and queries *)

Module ClientRestSpec.
Import Py Utils Models Constants Client ClientRest.
Import ClassifierTerms UploadTerms ClientRestTerms.

Lemma request_effect (env : Env) (self : DAMClient) (method endpoint : string)
    (files : list Part) (data : list (string * form_value)) (st : State) :
  snd (_request env self method endpoint files data st)
  = {| opened := opened st; closed := closed st;
       sent := sent st ++ [request_of self method endpoint files data] |}.
Proof. reflexivity. Qed.

(** X9: when the transport answers with a body that is a JSON object (or
    that does not parse), or fails with an exception of requests, _request
    returns, or raises an error of the SDK hierarchy: catching DAMError
    catches every failure of such a call.  One request is handed to the
    transport and no file is touched. *)
Theorem request_raises_sdk_errors (env : Env) (self : DAMClient)
    (method endpoint : string) (files : list Part)
    (data : list (string * form_value)) (st : State) :
  reportable (session_request env (request_of self method endpoint files data)) ->
  sdk_outcome (fst (_request env self method endpoint files data st))
  /\ snd (_request env self method endpoint files data st)
     = {| opened := opened st; closed := closed st;
          sent := sent st ++ [request_of self method endpoint files data] |}.
Proof.
  intro H. split; [|apply request_effect].
  unfold _request. cbn [fst]. fold (request_of self method endpoint files data).
  destruct (session_request env (request_of self method endpoint files data))
    as [r|e]; cbn [reportable] in H.
  - cbn [try_except bind]. destruct H as [d Hd].
    destruct (Z.eq_dec (status_code r) 200) as [E|E].
    + now rewrite (ClassifierSpec.handle_response_200 r E).
    + destruct (ClassifierSpec.handle_response_typed r d Hd E) as [e [-> He]].
      exact He.
  - destruct e; try discriminate H.
    destruct c; try discriminate H; reflexivity.
Qed.

Lemma request_raises_sdk_errors_witness :
  reportable (session_request
                (failing_env (Foreign requests_ConnectTimeout "timed out"))
                (request_of sample_client "GET" "/api/public/files" [] []))
  /\ sdk_outcome
       (fst (_request (failing_env (Foreign requests_ConnectTimeout "timed out"))
               sample_client "GET" "/api/public/files" [] [] initial))
  /\ snd (_request (failing_env (Foreign requests_ConnectTimeout "timed out"))
            sample_client "GET" "/api/public/files" [] [] initial)
     = {| opened := opened initial; closed := closed initial;
          sent := sent initial
                  ++ [request_of sample_client "GET" "/api/public/files" [] []] |}.
Proof.
  split; [reflexivity|].
  apply (request_raises_sdk_errors
           (failing_env (Foreign requests_ConnectTimeout "timed out"))
           sample_client "GET" "/api/public/files" [] [] initial).
  reflexivity.
Defined.














Lemma map_result_all {A B : Type} (f : A -> result B) (l : list A) :
  forall bs, map_result f l = Return bs ->
             Forall2 (fun a b => f a = Return b) l bs.
Proof.
  induction l as [|a l IH]; intros bs H; simpl in H.
  - injection H as <-. constructor.
  - destruct (f a) as [b|e] eqn:Ea; [|discriminate H]. simpl in H.
    destruct (map_result f l) as [bs'|e]; [|discriminate H].
    injection H as <-. constructor; [exact Ea | now apply IH].
Qed.

(** X14: when list_files gets a body that is a JSON object whose data is a
    list (or is missing, which counts as the empty list) and returns, the
    response holds one File per entry of data, in order, each the result of
    File.from_dict on that entry; success is the success field or False when
    it is missing, pagination the pagination field or the empty dict. *)
Theorem list_files_entries (parser : string -> option datetime) (d : dict)
    (items : list value) (r : ModelsRest.FileListResponse) :
  get_default d "data" (VList []) = VList items ->
  to_file_list_response parser (VDict d) = Return r ->
  Forall2 (fun item file => from_dict parser item = Return file)
          items (ModelsRest.flr_data r)
  /\ ModelsRest.flr_success r = get_default d "success" (VBool false)
  /\ ModelsRest.flr_pagination r = get_default d "pagination" (VDict []).
Proof.
  intros Hd H. unfold to_file_list_response, method_get in H.
  cbn [bind] in H. rewrite Hd in H. cbn [iterate bind] in H.
  destruct (map_result (from_dict parser) items) as [files|e] eqn:E;
    [|discriminate H].
  cbn [bind] in H. injection H as <-. cbn.
  split; [now apply map_result_all|]. now split.
Qed.

Lemma list_files_entries_witness :
  get_default one_file_listing "data" (VList [])
  = VList [VDict (ModelsTerms.sample_payload None None)]
  /\ exists r,
      to_file_list_response ModelsTerms.sample_fromisoformat
        (VDict one_file_listing) = Return r
      /\ Forall2 (fun item file =>
                    from_dict ModelsTerms.sample_fromisoformat item = Return file)
                 [VDict (ModelsTerms.sample_payload None None)]
                 (ModelsRest.flr_data r)
      /\ ModelsRest.flr_success r
         = get_default one_file_listing "success" (VBool false)
      /\ ModelsRest.flr_pagination r
         = get_default one_file_listing "pagination" (VDict []).
Proof.
  split; [reflexivity|].
  eexists. split; [reflexivity|].
  apply (list_files_entries ModelsTerms.sample_fromisoformat one_file_listing
           [VDict (ModelsTerms.sample_payload None None)]); reflexivity.
Defined.

(** X24: when the body of a multiple upload is a JSON object whose data is
    an object with a list under uploaded, and upload_multiple_files turns it
    into a response, the response holds one File per uploaded entry, in
    order, each the result of File.from_dict on that entry; failed and counts
    are the fields of data, or an empty list and an empty dict when they are
    missing; success is False and message is empty when the body does not
    give them. *)
Theorem upload_response_entries (env : Env) (d data : dict)
    (items : list value) (r : UploadResponse) :
  lookup "data" d = Some (VDict data) ->
  lookup "uploaded" data = Some (VList items) ->
  to_upload_response env (VDict d) = Return r ->
  Forall2 (fun item file => from_dict (fromisoformat env) item = Return file)
          items (ur_data r)
  /\ ur_failed r = get_default data "failed" (VList [])
  /\ ur_counts r = get_default data "counts" (VDict [])
  /\ ur_success r = get_default d "success" (VBool false)
  /\ ur_message r = get_default d "message" (VStr "").
Proof.
  intros Hd Hu H. unfold to_upload_response, contains, getitem, method_get in H.
  unfold has_key, get_default in H. rewrite Hd in H. cbn [bind] in H.
  rewrite Hu in H. cbn [bind iterate] in H.
  destruct (map_result (from_dict (fromisoformat env)) items) as [files|e] eqn:E;
    [|discriminate H].
  cbn [bind] in H. injection H as <-. cbn.
  split; [now apply map_result_all|]. now repeat split.
Qed.

Lemma upload_response_entries_witness :
  lookup "data" [("data", VDict one_uploaded)] = Some (VDict one_uploaded)
  /\ exists r,
      to_upload_response sample_env (VDict [("data", VDict one_uploaded)])
      = Return r
      /\ Forall2 (fun item file =>
                    from_dict (fromisoformat sample_env) item = Return file)
                 [VDict (ModelsTerms.sample_payload None None)] (ur_data r)
      /\ ur_failed r = get_default one_uploaded "failed" (VList [])
      /\ ur_counts r = get_default one_uploaded "counts" (VDict [])
      /\ ur_success r
         = get_default [("data", VDict one_uploaded)] "success" (VBool false)
      /\ ur_message r
         = get_default [("data", VDict one_uploaded)] "message" (VStr "").
Proof.
  split; [reflexivity|].
  eexists. split; [reflexivity|].
  apply (upload_response_entries sample_env [("data", VDict one_uploaded)]
           one_uploaded [VDict (ModelsTerms.sample_payload None None)]);
    reflexivity.
Defined.

(** X15: delete_file returns only what a reply with status 200 says: when
    it returns a value, the transport answered 200 with a body that is a
    JSON object (or did not parse), and the value is the success field of
    that body, or False when the field is missing. *)
Theorem delete_file_reports_reply (env : Env) (self : DAMClient)
    (file_id : string) (st : State) (v : value) :
  fst (delete_file env self file_id st) = Return v ->
  exists r d,
    session_request env
      (request_of self "DELETE" ("/api/public/files/" ++ file_id) [] [])
    = Return r
    /\ status_code r = 200
    /\ parse_body r = VDict d
    /\ v = get_default d "success" (VBool false).
Proof.
  unfold delete_file, bindM, _request, ENDPOINT_file_delete.
  fold (request_of self "DELETE" ("/api/public/files/" ++ file_id) [] []).
  destruct (session_request env _) as [r|e].
  - cbn [try_except bind]. intro H. exists r.
    destruct (Z.eq_dec (status_code r) 200) as [E|E].
    + rewrite (ClassifierSpec.handle_response_200 r E) in H.
      unfold lift, method_get in H. cbn [fst] in H.
      destruct (parse_body r) as [| | | | | |d|] eqn:Hp; try discriminate H.
      exists d. injection H as <-. now repeat split.
    + destruct (AsyncSpec.handle_response_raises r E) as [e He].
      rewrite He in H. discriminate H.
  - intro H. exfalso.
    destruct e; try discriminate H.
    destruct c; discriminate H.
Qed.

Lemma delete_file_reports_reply_witness :
  fst (delete_file (answering (VDict [("message", VStr "gone")])) sample_client
         "file-123" initial) = Return (VBool false)
  /\ exists r d,
      session_request (answering (VDict [("message", VStr "gone")]))
        (request_of sample_client "DELETE" ("/api/public/files/" ++ "file-123")
           [] [])
      = Return r
      /\ status_code r = 200
      /\ parse_body r = VDict d
      /\ VBool false = get_default d "success" (VBool false).
Proof.
  split; [reflexivity|].
  apply (delete_file_reports_reply
           (answering (VDict [("message", VStr "gone")])) sample_client
           "file-123" initial (VBool false)).
  reflexivity.
Defined.

Lemma present_strings (params : list (string * string)) :
  UtilsTerms.present (map (fun kv => (fst kv, QStr (snd kv))) params)
  = map (fun kv => (fst kv, QStr (snd kv))) params.
Proof.
  induction params as [|kv params IH]; [reflexivity|].
  unfold UtilsTerms.present in *. simpl. now rewrite IH.
Qed.

(** X16: the URL of get_file_url is the base URL, /api/transform/, the file
    id and, when options are given, a question mark followed by the
    parameters of to_query_params as key=value joined by ampersands, the
    values as they are (nothing is percent-encoded); when the options give no
    parameter, or no options are given, the URL has no query.  The default
    options give the query fit=cover&quality=80. *)
Theorem get_file_url_query (self : DAMClient) (file_id : string) :
  (forall options,
      get_file_url self file_id (Some options)
      = api_url self ++ "/api/transform/" ++ file_id
        ++ match to_query_params options with
           | [] => ""
           | params => "?" ++ String.concat "&" (map raw_pair params)
           end)
  /\ get_file_url self file_id None
     = api_url self ++ "/api/transform/" ++ file_id
  /\ get_file_url self file_id (Some TransformOptions_default)
     = api_url self ++ "/api/transform/" ++ file_id ++ "?fit=cover&quality=80".
Proof.
  assert (H : forall options,
             get_file_url self file_id (Some options)
             = api_url self ++ "/api/transform/" ++ file_id
               ++ match to_query_params options with
                  | [] => ""
                  | params => "?" ++ String.concat "&" (map raw_pair params)
                  end).
  { intro options. unfold get_file_url, ENDPOINT_transform, build_query_params.
    rewrite UtilsSpec.query_parts_present, present_strings, map_map.
    f_equal. rewrite UtilsRestSpec.append_assoc. f_equal. f_equal.
    destruct (to_query_params options) as [|kv params]; reflexivity. }
  split; [exact H|]. split; [reflexivity|].
  now rewrite H.
Qed.

Lemma rstrip_spec (s : string) :
  ends_with_slash (rstrip "/" s) = false
  /\ exists n, s = rstrip "/" s ++ slashes n.
Proof.
  induction s as [|a rest [Hend [n Hn]]]; [split; [reflexivity|now exists 0%nat]|].
  cbn [rstrip]. destruct (rstrip "/" rest) as [|b r] eqn:E.
  - destruct (Ascii.eqb a "/") eqn:Ea.
    + split; [reflexivity|]. exists (S n).
      apply Ascii.eqb_eq in Ea. subst a. simpl. now rewrite Hn at 1.
    + split; [simpl; exact Ea|]. exists n. simpl. now rewrite Hn at 1.
  - split; [exact Hend|]. exists n. simpl. now rewrite Hn at 1.
Qed.

Lemma rstrip_slashes (n : nat) : rstrip "/" (slashes n) = "".
Proof.
  induction n as [|n IH]; [reflexivity|]. simpl. now rewrite IH.
Qed.

Lemma rstrip_app_slashes (s : string) (n : nat) :
  rstrip "/" (s ++ slashes n) = rstrip "/" s.
Proof.
  induction s as [|a rest IH]; simpl; [apply rstrip_slashes|].
  now rewrite IH.
Qed.

(** X17: the client stores its base URL without trailing slashes: the stored
    URL does not end in a slash, the given URL is the stored one followed by
    slashes only, and adding slashes to the given URL changes nothing, so
    the URL of a request is the same for a base given with or without
    trailing slashes. *)
Theorem init_strips_trailing_slashes (url : string) (timeout : Z) :
  let self := DAMClient__init__ url timeout in
  ends_with_slash (api_url self) = false
  /\ (exists n, url = api_url self ++ slashes n)
  /\ (forall n, DAMClient__init__ (url ++ slashes n) timeout = self)
  /\ (forall n method endpoint files data,
        request_of (DAMClient__init__ (url ++ slashes n) timeout)
          method endpoint files data
        = request_of self method endpoint files data).
Proof.
  cbv zeta. unfold DAMClient__init__. cbn [api_url].
  destruct (rstrip_spec url) as [Hend Hn].
  split; [exact Hend|]. split; [exact Hn|].
  split; intros; now rewrite rstrip_app_slashes.
Qed.

End ClientRestSpec.

(* ================================================================= *)
(** ** async_client.py: uploads, queries and the session *)

Module AsyncRestSpec.
Import Py Utils Models Constants AsyncClient AsyncRest.
Import AsyncTerms AsyncRestTerms.

Lemma async_request_effect (env : AsyncEnv) (self : AsyncDAMClient)
    (method endpoint : string) (params : list (string * qvalue))
    (form : list (string * Client.form_value)) (file : option Client.Part)
    (st : AsyncState) :
  snd (_request env self method endpoint params form file st)
  = {| session := true;
       sessions_created := sessions_created (_ensure_session st);
       sessions_closed := sessions_closed st;
       opened := opened st;
       closed := (closed st
                  ++ payload_closes env
                       (aio_request_of self method endpoint params form file))%list;
       sent := sent st ++ [aio_request_of self method endpoint params form file] |}.
Proof.
  unfold _request, _ensure_session, aio_request_of.
  destruct (session st) eqn:E; cbn; now rewrite ?E.
Qed.

(** X18: the asynchronous upload_file refuses every stream with
    NotImplementedError; by then it has made sure that a session exists, and
    it has made no request and touched no file. *)
Theorem async_upload_file_refuses_streams (env : AsyncEnv)
    (self : AsyncDAMClient) (n : nat) (options : option UploadOptions)
    (st : AsyncState) :
  upload_file env self (Client.ObjArg n) options st
  = (Raise (Foreign builtin_NotImplementedError
              "File-like objects not yet supported in async client"),
     _ensure_session st)
  /\ sent (_ensure_session st) = sent st
  /\ opened (_ensure_session st) = opened st
  /\ session (_ensure_session st) = true.
Proof.
  unfold upload_file, _ensure_session.
  destruct (session st) eqn:E; repeat split; trivial.
Qed.

Lemma async_upload_file_state (env : AsyncEnv) (self : AsyncDAMClient)
    (path : string) (options : option UploadOptions) (st : AsyncState) :
  let (outcome, st') := upload_file env self (Client.PathArg path) options st in
  let f := Client.Opened (List.length (opened st)) in
  let request := upload_request env self path options (List.length (opened st)) in
  if uploadable env path
  then st' = {| session := true;
                sessions_created := sessions_created (_ensure_session st);
                sessions_closed := sessions_closed st;
                opened := opened st ++ [path];
                closed := closed st
                          ++ (if writes_payload env request then [f] else [])
                          ++ [f];
                sent := sent st ++ [request] |}
  else st' = _ensure_session st /\ raises outcome = true.
Proof.
  unfold upload_file, uploadable, bindA, liftA, validate_file_size.
  destruct (getsize env path) as [file_size|]; [|now split].
  change (100 * 1024 * 1024) with MAX_FILE_SIZE.
  destruct (file_size <=? MAX_FILE_SIZE); cbn [negb andb]; [|now split].
  unfold open_rb. destruct (openable env path); [|now split].
  rewrite (surjective_pairing (_request _ _ _ _ _ _ _ _)), async_request_effect.
  unfold upload_request, file_part, payload_closes.
  cbn [aio_file aio_request_of Client.part_file].
  destruct (fst (_request _ _ _ _ _ _ _ _)) as [v|e];
    [destruct (Client.method_get v "data" (VDict []))|];
    destruct st as [live created closed_sessions opened_files closed_files requests];
    destruct live; unfold close_file;
    cbn [session sessions_created sessions_closed opened closed sent
         _ensure_session];
    rewrite <- app_assoc; reflexivity.
Qed.


(** With a transport that writes the payload, a successful upload on a fresh
    client calls close() twice on the one file it opened. *)
Example async_upload_closes_twice :
  let body := VDict [("data", VDict (ModelsTerms.sample_payload None None))] in
  closed (snd (upload_file (answering body) sample_async_client
                 (Client.PathArg "a.bin") None initial))
  = [Client.Opened 0; Client.Opened 0]
  /\ raises (fst (upload_file (answering body) sample_async_client
                    (Client.PathArg "a.bin") None initial)) = false.
Proof. split; reflexivity. Qed.

(** X20: the form of the asynchronous upload is the form data of the
    synchronous one without original_name: folder_id and metadata are sent
    under the same conditions and with the same values, original_name is
    never sent by the asynchronous client. *)
Theorem async_upload_form_omits_original_name (options : UploadOptions) :
  upload_form options
  = filter (fun kv => negb (fst kv =? "original_name")%string)
           (Client._build_upload_data options)
  /\ lookup "original_name" (upload_form options) = None
  /\ lookup "original_name" (Client._build_upload_data options)
     = option_map Client.FormStr (ModelsTerms.textual (uo_original_name options)).
Proof.
  destruct options as [folder meta name].
  unfold upload_form, Client._build_upload_data, ModelsTerms.textual, str_set.
  cbn [uo_folder_id uo_metadata uo_original_name].
  destruct folder as [folder|]; [destruct (folder =? "")%string|];
    (destruct meta as [[|x m]|]);
    (destruct name as [name|]; [destruct (name =? "")%string|]);
    repeat split.
Qed.

(** X21: the parameters that the asynchronous list_files sends are those of
    the synchronous one without sort and order, with the same values: the
    asynchronous client never sends the sort key or the order. *)
Theorem async_list_files_omits_sort (options : option ModelsRest.SearchOptions) :
  list_files_params options
  = filter (fun kv => negb (fst kv =? "sort")%string
                      && negb (fst kv =? "order")%string)
           (ClientRest.list_files_params options)
  /\ map fst (ClientRest.list_files_params options)
     = ["folder_id"; "mime_type"; "search"; "limit"; "offset"; "sort"; "order"].
Proof.
  split; reflexivity.
Qed.

Lemma ensure_session_live (st : AsyncState) :
  (sessions_created st = sessions_closed st + (if session st then 1 else 0))%nat ->
  let st' := _ensure_session st in
  (sessions_created st' = sessions_closed st' + (if session st' then 1 else 0))%nat.
Proof.
  unfold _ensure_session. destruct (session st) eqn:E; cbn; rewrite ?E; lia.
Qed.

Lemma close_live (st : AsyncState) :
  (sessions_created st = sessions_closed st + (if session st then 1 else 0))%nat ->
  let st' := close st in
  (sessions_created st' = sessions_closed st' + (if session st' then 1 else 0))%nat.
Proof.
  unfold close. destruct (session st) eqn:E; cbn; rewrite ?E; lia.
Qed.

(** A call that goes through [_request] leaves the session as
    [_ensure_session] does. *)
Lemma after_call_session (env : AsyncEnv) (self : AsyncDAMClient) (c : call)
    (st : AsyncState) :
  let st' := after_call env self c st in
  (session st', sessions_created st', sessions_closed st')
  = match c with
    | CallExit | CallClose =>
        (session (close st), sessions_created (close st),
         sessions_closed (close st))
    | _ =>
        (session (_ensure_session st), sessions_created (_ensure_session st),
         sessions_closed (_ensure_session st))
    end.
Proof.
  assert (He : forall s, session (_ensure_session s) = true
                         /\ sessions_closed (_ensure_session s) = sessions_closed s).
  { intro s. unfold _ensure_session. destruct (session s) eqn:E; cbn;
      rewrite ?E; split; reflexivity. }
  destruct c as [| | |[path|n] options|options|file_id|file_id]; cbv zeta;
    try reflexivity.
  - pose proof (async_upload_file_state env self path options st) as H.
    unfold after_call.
    destruct (upload_file env self (Client.PathArg path) options st) as [r st'].
    cbn [snd]. cbv zeta in H. destruct (uploadable env path).
    + subst st'. cbn. destruct (He st) as [-> ->]. reflexivity.
    + destruct H as [-> _]. reflexivity.
  - unfold after_call, list_files, bindA.
    rewrite (surjective_pairing (_request _ _ _ _ _ _ _ _)), async_request_effect.
    destruct (fst (_request _ _ _ _ _ _ _ _)); cbn;
      destruct (He st) as [-> ->]; reflexivity.
  - unfold after_call, get_file, bindA.
    rewrite (surjective_pairing (_request _ _ _ _ _ _ _ _)), async_request_effect.
    destruct (fst (_request _ _ _ _ _ _ _ _)) as [v|e]; cbn;
      [destruct (Client.method_get v "data" (VDict [])); cbn|];
      destruct (He st) as [-> ->]; reflexivity.
  - unfold after_call, delete_file, bindA.
    rewrite (surjective_pairing (_request _ _ _ _ _ _ _ _)), async_request_effect.
    destruct (fst (_request _ _ _ _ _ _ _ _)); cbn;
      destruct (He st) as [-> ->]; reflexivity.
Qed.

Lemma after_call_live (env : AsyncEnv) (self : AsyncDAMClient) (c : call)
    (st : AsyncState) :
  (sessions_created st = sessions_closed st + (if session st then 1 else 0))%nat ->
  let st' := after_call env self c st in
  (sessions_created st' = sessions_closed st' + (if session st' then 1 else 0))%nat.
Proof.
  intro H. cbv zeta.
  pose proof (after_call_session env self c st) as Hs. cbv zeta in Hs.
  pose proof (ensure_session_live st H) as He. cbv zeta in He.
  pose proof (close_live st H) as Hc. cbv zeta in Hc.
  destruct c;
    (exact He || exact Hc
     || (apply pair_equal_spec in Hs; destruct Hs as [Hs H3];
         apply pair_equal_spec in Hs; destruct Hs as [H1 H2];
         rewrite H1, H2, H3; assumption)).
Qed.

(** X22: whatever sequence of calls is made on a fresh asynchronous client
    (entering, uploads, listings, lookups, deletions, closing, in any order
    and with any outcome), at most one session is live, one exactly when
    self.session is set; and after a final close() none is: every session
    that was created has been closed. *)
Theorem session_lifecycle (env : AsyncEnv) (self : AsyncDAMClient)
    (calls : list call) :
  let st := after_calls env self calls initial in
  live_sessions st = (if session st then 1 else 0)%nat
  /\ (sessions_closed st <= sessions_created st)%nat
  /\ session (close st) = false
  /\ live_sessions (close st) = 0%nat.
Proof.
  cbv zeta.
  assert (H : forall st,
             (sessions_created st
              = sessions_closed st + (if session st then 1 else 0))%nat ->
             let st' := after_calls env self calls st in
             (sessions_created st'
              = sessions_closed st' + (if session st' then 1 else 0))%nat).
  { unfold after_calls. induction calls as [|c calls IH]; intros st Hst.
    - exact Hst.
    - cbn [fold_left]. apply IH. now apply after_call_live. }
  specialize (H initial eq_refl). cbv zeta in H.
  pose proof (close_live _ H) as Hc. cbv zeta in Hc.
  unfold live_sessions.
  assert (Hf : session (close (after_calls env self calls initial)) = false).
  { unfold close. destruct (session _) eqn:E; [reflexivity|exact E]. }
  rewrite Hf in Hc.
  repeat split; try lia. exact Hf.
Qed.

(** X23: on a reply with status 200 both clients treat the body of get_file
    alike: given the same parsed body and the same timestamp parser, the
    synchronous and the asynchronous get_file return the same File or raise
    the same error. *)
Theorem get_file_agrees_on_success (cenv : Client.Env) (aenv : AsyncEnv)
    (cself : Client.DAMClient) (aself : AsyncDAMClient) (file_id text : string)
    (body : value) (cst : Client.State) (ast : AsyncState) :
  Client.session_request cenv
    (ClientRestTerms.request_of cself "GET" ("/api/public/files/" ++ file_id) [] [])
  = Return {| Client.status_code := 200; Client.text := text;
              Client.json := Some body |} ->
  session_request aenv
    (aio_request_of aself "GET" ("/api/public/files/" ++ file_id) [] [] None)
  = Return {| status := 200; body_text := text; body_json := Return body |} ->
  Client.fromisoformat cenv = fromisoformat aenv ->
  fst (ClientRest.get_file cenv cself file_id cst)
  = fst (get_file aenv aself file_id ast).
Proof.
  intros Hc Ha Hp.
  unfold ClientRest.get_file, get_file, Client.bindM, bindA, Client._request,
    _request, ClientRest.ENDPOINT_file_detail.
  fold (ClientRestTerms.request_of cself "GET" ("/api/public/files/" ++ file_id) [] []).
  fold (aio_request_of aself "GET" ("/api/public/files/" ++ file_id) [] [] None).
  rewrite Hc, Ha, Hp. cbn.
  destruct (Client.method_get body "data" (VDict [])); reflexivity.
Qed.

Lemma get_file_agrees_on_success_witness :
  let body := VDict [("data", VDict (ModelsTerms.sample_payload None None))] in
  Client.session_request (ClientRestTerms.answering body)
    (ClientRestTerms.request_of UploadTerms.sample_client "GET"
       ("/api/public/files/" ++ "file-123") [] [])
  = Return {| Client.status_code := 200; Client.text := "";
              Client.json := Some body |}
  /\ fst (ClientRest.get_file (ClientRestTerms.answering body)
            UploadTerms.sample_client "file-123" Client.initial)
     = fst (get_file (answering body) sample_async_client "file-123" initial).
Proof.
  split; [reflexivity|].
  apply (get_file_agrees_on_success
           (ClientRestTerms.answering
              (VDict [("data", VDict (ModelsTerms.sample_payload None None))]))
           (answering
              (VDict [("data", VDict (ModelsTerms.sample_payload None None))]))
           UploadTerms.sample_client sample_async_client "file-123" ""
           (VDict [("data", VDict (ModelsTerms.sample_payload None None))])
           Client.initial initial); reflexivity.
Defined.

End AsyncRestSpec.
